(** * Shiplog integrations: Jira and GitHub webhook intake and sync

    A shallow embedding of the TypeScript sources

    - [JiraWebhookHandler] and [JiraIntegrationService],
    - [GithubWebhookHandler] and [GithubIntegrationService],

    together with the part of the JavaScript run time they rely on
    (truthiness, property lookup through [Object.prototype], binary64
    numbers, [Math.floor], [Math.round], [Math.random], the console).

    Every [async] method is awaited at once by its only caller, so a call
    is a sequential computation over the state of the process: the console,
    the service's retry queue and the random source. *)

From Stdlib Require Import ZArith Bool String Ascii List Lia.
From Stdlib Require Import DecimalString Floats Uint63.
Import ListNotations.

Local Open Scope string_scope.
Local Open Scope Z_scope.

(* ================================================================== *)
(** * The JavaScript run time *)
(* ================================================================== *)

Module JS.

(** ** Numbers

    A JavaScript Number is an IEEE-754 binary64 value: Rocq's primitive
    [float]. *)

Definition Number := float.

(** The Number nearest to an integer; exact below 2^53 in magnitude,
    rounded to nearest-even up to 2^63. *)
Definition of_Z (z : Z) : Number :=
  if z <? 0 then PrimFloat.opp (PrimFloat.of_uint63 (Uint63.of_Z (- z)))
  else PrimFloat.of_uint63 (Uint63.of_Z z).

(** The numerator of a finite value over its power of two. *)
Definition signed (s : bool) (m : positive) : Z :=
  if s then Z.neg m else Z.pos m.

(** [Math.floor]: zeros, NaN and infinities are returned as they are; a
    value whose exponent is not negative is integral already. *)
Definition Math_floor (x : Number) : Number :=
  match Prim2SF x with
  | S754_finite s m e =>
      if 0 <=? e then x else of_Z (Z.shiftl (signed s m) e)
  | _ => x
  end.

(** [Math.round]: the nearest integral Number, a tie going towards
    +Infinity; a result of zero keeps the sign of the argument. *)
Definition Math_round (x : Number) : Number :=
  match Prim2SF x with
  | S754_finite s m e =>
      if 0 <=? e then x
      else
        let n := Z.shiftr (2 * signed s m + 2 ^ (- e)) (1 - e) in
        if n =? 0 then (if s then (-0)%float else 0%float) else of_Z n
  | _ => x
  end.

(** Digits of [n], padded with zeros on the left to [width] characters. *)
Fixpoint pad_left (width : nat) (s : string) : string :=
  match width with
  | O => s
  | S k => if (String.length s <? S k)%nat then pad_left k ("0" ++ s) else s
  end.

Fixpoint strip_trailing_zeros_rev (cs : list ascii) : list ascii :=
  match cs with
  | "0"%char :: rest => strip_trailing_zeros_rev rest
  | _ => cs
  end.

Definition strip_trailing_zeros (s : string) : string :=
  string_of_list_ascii
    (rev (strip_trailing_zeros_rev (rev (list_ascii_of_string s)))).

Definition digits (n : Z) : string := NilZero.string_of_int (Z.to_int n).

(** [Number::toString] in radix 10, as a template literal applies it.

    ECMAScript prints the shortest decimal that reads back as the same
    Number.  For an integral value below 10^21 that is its decimal
    numeral, and this is the only case the program reaches: it prints the
    result of a [Math.floor].  On the other finite values the function
    writes the binary value out in full, which is a decimal that reads
    back as the same Number but need not be the shortest one. *)
Definition Number_toString (x : Number) : string :=
  match Prim2SF x with
  | S754_nan => "NaN"
  | S754_infinity false => "Infinity"
  | S754_infinity true => "-Infinity"
  | S754_zero _ => "0"
  | S754_finite s m e =>
      let sign := if s then "-" else "" in
      if 0 <=? e then sign ++ digits (Z.pos m * 2 ^ e)
      else
        let d := 2 ^ (- e) in
        let whole := Z.pos m / d in
        let part := Z.pos m mod d in
        if part =? 0 then sign ++ digits whole
        else
          sign ++ digits whole ++ "." ++
          strip_trailing_zeros
            (pad_left (Z.to_nat (- e)) (digits (part * 5 ^ (- e))))
  end.

(** ** Values

    The values that flow through the modelled methods. *)

(** A [TypeError] raised by reading a property of [undefined]. *)
Inductive Error : Type :=
| TypeError_reading (property : string).

Inductive Value : Type :=
| VUndefined
| VString (s : string)
| VNumber (x : Number)
| VInherited (member : string)
    (** the value an object literal finds on [Object.prototype] under
        [member]: a function object, or for [__proto__] the prototype
        object itself *)
| VError (e : Error)
| VUnits (units : list N)
    (** a string given by its UTF-16 code units, for the one place where
        the program counts them *).

(** [ToBoolean]. *)
Definition truthy (v : Value) : bool :=
  match v with
  | VUndefined => false
  | VString s => negb (String.eqb s "")
  | VNumber x =>
      negb (PrimFloat.is_nan x || PrimFloat.is_zero x)
  | VInherited _ => true
  | VError _ => true
  | VUnits units =>
      match units with
      | [] => false
      | _ :: _ => true
      end
  end.

(** [a || b]. *)
Definition or_else (a b : Value) : Value := if truthy a then a else b.

(** A value of TypeScript type [string] that may be absent at run time. *)
Definition of_optional (s : option string) : Value :=
  match s with
  | Some s => VString s
  | None => VUndefined
  end.

(** The own property names of [Object.prototype] (ECMAScript 2023, Annex B
    included).  Every one of them holds a function, except the accessor
    [__proto__], which yields the prototype object. *)
Definition Object_prototype_members : list string :=
  [ "constructor"; "__defineGetter__"; "__defineSetter__";
    "hasOwnProperty"; "__lookupGetter__"; "__lookupSetter__";
    "isPrototypeOf"; "propertyIsEnumerable"; "toString"; "valueOf";
    "__proto__"; "toLocaleString" ].

Fixpoint own_property (props : list (string * string)) (key : string)
  : option string :=
  match props with
  | [] => None
  | (k, v) :: rest => if String.eqb k key then Some v else own_property rest key
  end.

Definition inherits (key : string) : bool :=
  existsb (String.eqb key) Object_prototype_members.

(** [obj[key]] for an object literal [obj] with string-valued own
    properties: the own property when there is one, otherwise what the
    prototype chain finds, otherwise [undefined]. *)
Definition get (obj : list (string * string)) (key : string) : Value :=
  match own_property obj key with
  | Some v => VString v
  | None => if inherits key then VInherited key else VUndefined
  end.

(** ** Template literals and the console

    A template literal is kept as its sequence of literal chunks and
    substituted values; [ToString] of a substitution is left to the sink. *)
Inductive Fragment : Type :=
| Lit (s : string)
| Sub (v : Value).

Definition Template := list Fragment.

Inductive Level : Type := LOG | WARN | ERROR.

Record Line : Type := mkLine { level : Level; text : Template }.

End JS.

Import JS.

(* ================================================================== *)
(** * JiraTypes.ts and GithubTypes.ts *)
(* ================================================================== *)

(** The interfaces, field by field.  A field name that several
    interfaces share, or that Rocq already uses, carries the name of its
    interface in front.

    The Jira handler casts the request body to [JiraWebhookPayload]
    without a check, and [syncIssue] guards its property reads with
    [try]/[catch]: the members [issue], [fields] and [status], whose
    absence raises the [TypeError] that the [catch] handles, are optional
    here.  The GitHub handler casts its body in the same way and nothing
    catches there: the members that [trackPullRequest] and
    [monitorCommits] read through, [repository], the [user] of a pull
    request, and the [id] and [author] of a commit, are optional too.

    Strings are passed on, compared and concatenated, which does not
    depend on how they are encoded; the one exception is
    [commit.id.substring(0, 7)], which counts UTF-16 code units, so the
    id of a commit is kept as the list of its code units. *)

Record JiraAuthConfig : Type := {
  jira_clientId : string;
  jira_clientSecret : string;
  redirectUri : string;
  scopes : list string
}.

Record JiraStatus : Type := { status_name : string; status_id : string }.

Record JiraAssignee : Type := { displayName : string; accountId : string }.

Record JiraFields : Type := {
  summary : string;
  fields_status : option JiraStatus;
  assignee : option JiraAssignee;
  updated : string
}.

Record JiraIssue : Type := {
  issue_id : string;
  issue_key : string;
  issue_fields : option JiraFields
}.

Record JiraUser : Type := { user_displayName : string }.

Record JiraWebhookPayload : Type := {
  timestamp : Number;
  webhookEvent : string;
  issue : option JiraIssue;
  user : option JiraUser
}.

Inductive SyncStatus : Type := SUCCESS | FAILURE | RETRY_QUEUED.

Record SyncResult : Type := {
  status : SyncStatus;
  externalId : string;
  internalId : option string;
  error : option Error
}.

Record GithubAuthConfig : Type := {
  github_clientId : string;
  github_clientSecret : string;
  appId : string;
  installationId : option string
}.

Record GithubPRMetadata : Type := {
  meta_id : Number;
  meta_number : Number;
  meta_title : string;
  author : string;
  meta_additions : Number;
  meta_deletions : Number;
  reviewCycles : Number;
  createdAt : string;
  mergedAt : option string;
  timeToMergeHours : option Number
}.

Record GithubUser : Type := { login : string }.

Record PullRequest : Type := {
  pr_id : Number;
  pr_number : Number;
  pr_title : string;
  pr_user : option GithubUser;
  pr_additions : Number;
  pr_deletions : Number;
  created_at : string;
  merged_at : option string
}.

Record CommitAuthor : Type := { name : string }.

Record Commit : Type := {
  commit_id : option (list N);
  message : string;
  commit_author : option CommitAuthor;
  commit_timestamp : string
}.

Record Repository : Type := { full_name : string; repository_id : Number }.

Record GithubWebhookPayload : Type := {
  action : option string;
  pull_request : option PullRequest;
  commits : option (list Commit);
  repository : option Repository
}.

(* ================================================================== *)
(** * The state of the process and its computations *)
(* ================================================================== *)

(** An entry of [JiraIntegrationService.retryQueue]: the closure
    [() => this.syncIssue(payload)], known by the payload it captured. *)
Record RetryTask : Type := { captured : JiraWebhookPayload }.

(** What a call can read and change: the lines written to the console
    (oldest first), the retry queue of the one [JiraIntegrationService],
    and the random source, given as the sequence of values that
    successive calls of [Math.random] return and the number of calls
    made so far. *)
Record World : Type := mkWorld {
  console : list Line;
  retryQueue : list RetryTask;
  random : nat -> Number;
  drawn : nat
}.

(** How a call ends: with a value, or with a thrown error (a rejected
    promise). *)
Inductive Completion (A : Type) : Type :=
| Normal (a : A)
| Throw (e : Error).

Arguments Normal {A} a.
Arguments Throw {A} e.

Definition M (A : Type) : Type := World -> Completion A * World.

Definition ret {A} (a : A) : M A := fun w => (Normal a, w).

Definition throw {A} (e : Error) : M A := fun w => (Throw e, w).

Definition bind {A B} (m : M A) (k : A -> M B) : M B :=
  fun w =>
    match m w with
    | (Normal a, w') => k a w'
    | (Throw e, w') => (Throw e, w')
    end.

Notation "x <- m ;; k" := (bind m (fun x => k))
  (at level 61, m at next level, right associativity).
Notation "m ;; k" := (bind m (fun _ => k))
  (at level 61, right associativity).

(** [try { body } catch (error) { handler }]. *)
Definition try_catch {A} (body : M A) (handler : Error -> M A) : M A :=
  fun w =>
    match body w with
    | (Normal a, w') => (Normal a, w')
    | (Throw e, w') => handler e w'
    end.

(** [o.property], where [o] may be [undefined]. *)
Definition read {A} (o : option A) (property : string) : M A :=
  match o with
  | Some a => ret a
  | None => throw (TypeError_reading property)
  end.

Definition write_line (l : Level) (t : Template) : M unit :=
  fun w =>
    (Normal tt,
     mkWorld (console w ++ [mkLine l t]) (retryQueue w) (random w) (drawn w)).

Definition console_log : Template -> M unit := write_line LOG.
Definition console_warn : Template -> M unit := write_line WARN.
Definition console_error : Template -> M unit := write_line ERROR.

(** [Math.random()]. *)
Definition Math_random : M Number :=
  fun w =>
    (Normal (random w (drawn w)),
     mkWorld (console w) (retryQueue w) (random w) (S (drawn w))).

(** [this.retryQueue.push(task)]. *)
Definition retryQueue_push (t : RetryTask) : M unit :=
  fun w =>
    (Normal tt,
     mkWorld (console w) (retryQueue w ++ [t]) (random w) (drawn w)).

(** ** Persistence as the sources have it

    [persistUpdate] and [savePRMetadata] store by writing one line that
    starts with [[DB] PERSIST:]; the writes of a run are those lines. *)
Definition is_persist_line (l : Line) : bool :=
  match text l with
  | Lit s :: _ => String.prefix "[DB] PERSIST:" s
  | _ => false
  end.

Definition persistence_writes (w : World) : list Line :=
  filter is_persist_line (console w).

(** The status that the latest write for entity [id] stored. *)
Definition stored_status_of (id : string) (l : Line) : option Value :=
  match text l with
  | [Lit "[DB] PERSIST: Entity "; Sub (VString id'); Lit " updated to "; Sub v] =>
      if String.eqb id' id then Some v else None
  | _ => None
  end.

Fixpoint latest {A} (f : Line -> option A) (newest_first : list Line)
  : option A :=
  match newest_first with
  | [] => None
  | l :: rest =>
      match f l with
      | Some a => Some a
      | None => latest f rest
      end
  end.

Definition persisted_status (id : string) (w : World) : option Value :=
  latest (stored_status_of id) (rev (console w)).

(* ================================================================== *)
(** * JiraIntegrationService.ts *)
(* ================================================================== *)

(** The service object holds [config], which only [authorize] reads, and
    [retryQueue], which lives in the [World]. *)
Record JiraIntegrationService : Type := { config : JiraAuthConfig }.

(** [private async resolveInternalEntity(jiraKey)]. *)
Definition resolveInternalEntity (jiraKey : string) : M string :=
  r <- Math_random ;;
  ret ("SHIP-" ++ Number_toString (Math_floor (r * 1000)%float)).

Definition statusMap : list (string * string) :=
  [ ("To Do", "BACKLOG");
    ("In Progress", "ACTIVE");
    ("Done", "RELEASED");
    ("Closed", "RELEASED") ].

(** [private mapJiraStatusToInternal(status)].  The declared result type
    is [string]; what the expression yields is whatever the lookup
    finds. *)
Definition mapJiraStatusToInternal (status : string) : Value :=
  or_else (get statusMap status) (VString "UNKNOWN").

(** [private async persistUpdate(id, status)]. *)
Definition persistUpdate (id : string) (status : Value) : M unit :=
  console_log
    [Lit "[DB] PERSIST: Entity "; Sub (VString id);
     Lit " updated to "; Sub status].

(** [private queueForRetry(payload)]. *)
Definition queueForRetry (payload : JiraWebhookPayload) : M unit :=
  i <- read (issue payload) "key" ;;
  console_log
    [Lit "[JIRA_RETRY] Queuing "; Sub (VString (issue_key i));
     Lit " for background reconciliation..."] ;;
  retryQueue_push {| captured := payload |}.

(** [public async syncIssue(payload)]. *)
Definition syncIssue (payload : JiraWebhookPayload) : M SyncResult :=
  i <- read (issue payload) "key" ;;
  console_log
    [Lit "[JIRA_SYNC] Processing "; Sub (VString (webhookEvent payload));
     Lit " for Issue: "; Sub (VString (issue_key i))] ;;
  try_catch
    (internalId <- resolveInternalEntity (issue_key i) ;;
     f <- read (issue_fields i) "status" ;;
     s <- read (fields_status f) "name" ;;
     let normalizedStatus := mapJiraStatusToInternal (status_name s) in
     console_log
       [Lit "[JIRA_SYNC] Mapping "; Sub (VString (issue_key i));
        Lit " to Status: "; Sub normalizedStatus] ;;
     persistUpdate internalId normalizedStatus ;;
     ret {| status := SUCCESS; externalId := issue_id i;
            internalId := Some internalId; error := None |})
    (fun error =>
       console_error
         [Lit "[JIRA_SYNC] Failed to sync "; Sub (VString (issue_key i));
          Lit ". Error: "; Sub (VError error)] ;;
       queueForRetry payload ;;
       ret {| status := RETRY_QUEUED; externalId := issue_id i;
              internalId := None; error := Some error |}).

(** Calling a queued closure: its body is [this.syncIssue(payload)]. *)
Definition run_task (t : RetryTask) : M SyncResult := syncIssue (captured t).

(** The state after a worker has called the queued closure [t] [n] times
    in a row. *)
Fixpoint rerun (n : nat) (t : RetryTask) (w : World) : World :=
  match n with
  | O => w
  | S k => snd (run_task t (rerun k t w))
  end.

(* ================================================================== *)
(** * JiraWebhookHandler.ts *)
(* ================================================================== *)

Record JiraWebhookHandler : Type := { syncService : JiraIntegrationService }.

Record JiraResponse : Type := { statusCode : Z }.

(** [private isValidSignature(sig)]. *)
Definition isValidSignature (this : JiraWebhookHandler) (sig : option string)
  : bool :=
  truthy (of_optional sig).

(** [public async handleWebhook(body, signature)]. *)
Definition handleWebhook (this : JiraWebhookHandler)
    (body : JiraWebhookPayload) (signature : option string)
  : M JiraResponse :=
  console_log [Lit "[JIRA_WEBHOOK] Received incoming signal from Atlassian..."] ;;
  if negb (isValidSignature this signature) then
    console_warn [Lit "[JIRA_WEBHOOK] SECURITY ALERT: Invalid signature detected."] ;;
    ret {| statusCode := 401 |}
  else
    result <- syncIssue body ;;
    match status result with
    | SUCCESS => ret {| statusCode := 200 |}
    | _ => ret {| statusCode := 202 |}
    end.

(* ================================================================== *)
(** * GithubIntegrationService.ts *)
(* ================================================================== *)

Record GithubIntegrationService : Type := { authConfig : GithubAuthConfig }.

Section Github.

(** [new Date(s).getTime()]: the time value of the date that the run time
    reads from [s], in milliseconds since the epoch; NaN when [s] is not
    a date. *)
Variable Date_getTime : string -> Number.

(** [private async fetchReviewCycles(prNumber)]. *)
Definition fetchReviewCycles (prNumber : Number) : M Number :=
  r <- Math_random ;;
  ret (Math_floor (r * 5) + 1)%float.

(** [private async savePRMetadata(meta)]. *)
Definition savePRMetadata (meta : GithubPRMetadata) : M unit :=
  console_log
    [Lit "[DB] PERSIST: PR #"; Sub (VNumber (meta_number meta));
     Lit " metadata stored. TTM: ";
     Sub (match timeToMergeHours meta with
          | Some h => VNumber h
          | None => VUndefined
          end);
     Lit "h"].

(** [public async trackPullRequest(payload)]; [None] is [null]. *)
Definition trackPullRequest (payload : GithubWebhookPayload)
  : M (option GithubPRMetadata) :=
  match pull_request payload with
  | None => ret None
  | Some pr =>
      repo <- read (repository payload) "full_name" ;;
      console_log
        [Lit "[GITHUB_TRACK] Processing PR #"; Sub (VNumber (pr_number pr));
         Lit " in "; Sub (VString (full_name repo))] ;;
      let createdAt := Date_getTime (created_at pr) in
      let mergedAt :=
        match merged_at pr with
        | Some m => if truthy (VString m) then Some (Date_getTime m) else None
        | None => None
        end in
      let timeToMerge :=
        match mergedAt with
        | Some merged => ((merged - createdAt) / (1000 * 60 * 60))%float
        | None => 0%float
        end in
      user <- read (pr_user pr) "login" ;;
      cycles <- fetchReviewCycles (pr_number pr) ;;
      let metadata :=
        {| meta_id := pr_id pr;
           meta_number := pr_number pr;
           meta_title := pr_title pr;
           author := login user;
           meta_additions := pr_additions pr;
           meta_deletions := pr_deletions pr;
           reviewCycles := cycles;
           createdAt := created_at pr;
           mergedAt := merged_at pr;
           timeToMergeHours :=
             Some (Math_round (timeToMerge * 100) / 100)%float |} in
      savePRMetadata metadata ;;
      ret (Some metadata)
  end.

(** [for (const commit of commits) { console.log(...) }]. *)
Fixpoint track_commits (commits : list Commit) : M unit :=
  match commits with
  | [] => ret tt
  | commit :: rest =>
      id <- read (commit_id commit) "substring" ;;
      who <- read (commit_author commit) "name" ;;
      console_log
        [Lit "[GITHUB_COMMIT] Tracking commit: ";
         Sub (VUnits (firstn 7 id));
         Lit " by "; Sub (VString (name who))] ;;
      track_commits rest
  end.

(** [public async monitorCommits(payload)]. *)
Definition monitorCommits (payload : GithubWebhookPayload) : M unit :=
  let commits :=
    match commits payload with
    | Some cs => cs
    | None => []
    end in
  repo <- read (repository payload) "full_name" ;;
  console_log
    [Lit "[GITHUB_COMMIT] Ingesting ";
     Sub (VNumber (of_Z (Z.of_nat (List.length commits))));
     Lit " commits for "; Sub (VString (full_name repo))] ;;
  track_commits commits.

(* ================================================================== *)
(** * GithubWebhookHandler.ts *)
(* ================================================================== *)

Record GithubWebhookHandler : Type := { githubService : GithubIntegrationService }.

Record GithubResponse : Type := { response_status : string }.

(** The request headers, by name. *)
Definition Headers := list (string * string).

(** [private verifySignature(sig, payload)]. *)
Definition verifySignature (this : GithubWebhookHandler)
    (sig : option string) (payload : GithubWebhookPayload) : bool :=
  truthy (of_optional sig).

(** [eventType === kind], for a header that may be missing. *)
Definition is_kind (eventType : option string) (kind : string) : bool :=
  match eventType with
  | Some e => String.eqb e kind
  | None => false
  end.

(** [public async handleEvent(headers, body)]. *)
Definition handleEvent (this : GithubWebhookHandler)
    (headers : Headers) (body : GithubWebhookPayload) : M GithubResponse :=
  let eventType := own_property headers "x-github-event" in
  let signature := own_property headers "x-hub-signature-256" in
  console_log
    [Lit "[GITHUB_WEBHOOK] Received '"; Sub (of_optional eventType);
     Lit "' event."] ;;
  if negb (verifySignature this signature body) then
    console_error [Lit "[GITHUB_WEBHOOK] Signature mismatch. Rejecting event."] ;;
    ret {| response_status := "UNAUTHORIZED" |}
  else
    (if is_kind eventType "pull_request" then
       _ <- trackPullRequest body ;; ret tt
     else if is_kind eventType "push" then
       monitorCommits body
     else
       console_log
         [Lit "[GITHUB_WEBHOOK] Event type '"; Sub (of_optional eventType);
          Lit "' not currently tracked."]) ;;
    ret {| response_status := "ACCEPTED" |}.

End Github.

(* ================================================================== *)
(** * A date reader for the timestamps GitHub sends *)
(* ================================================================== *)

(** [Date_getTime] stands for the run time's own parser.  This instance
    reads the one layout the GitHub API writes, [YYYY-MM-DDTHH:MM:SSZ],
    and yields NaN for anything else; the examples use it. *)

Definition digit_value (c : ascii) : option Z :=
  let n := Z.of_nat (nat_of_ascii c) in
  if (48 <=? n) && (n <=? 57) then Some (n - 48) else None.

Fixpoint number_of (cs : list ascii) (acc : Z) : option Z :=
  match cs with
  | [] => Some acc
  | c :: rest =>
      match digit_value c with
      | Some d => number_of rest (10 * acc + d)
      | None => None
      end
  end.

(** The decimal number written in the [len] characters from [from]. *)
Definition field (s : string) (from len : nat) : option Z :=
  let part := String.substring from len s in
  if (String.length part =? len)%nat
  then number_of (list_ascii_of_string part) 0
  else None.

Definition is_leap (y : Z) : bool :=
  ((y mod 4 =? 0) && negb (y mod 100 =? 0)) || (y mod 400 =? 0).

Definition days_in_month (y m : Z) : Z :=
  if m =? 2 then (if is_leap y then 29 else 28)
  else if (m =? 4) || (m =? 6) || (m =? 9) || (m =? 11) then 30
  else 31.

(** Days from 1970-01-01 to the civil date [y]-[m]-[d]. *)
Definition days_from_civil (y m d : Z) : Z :=
  let y' := if m <=? 2 then y - 1 else y in
  let era := y' / 400 in
  let yoe := y' - era * 400 in
  let mp := (m + 9) mod 12 in
  let doy := (153 * mp + 2) / 5 + d - 1 in
  let doe := yoe * 365 + yoe / 4 - yoe / 100 + doy in
  era * 146097 + doe - 719468.

Definition iso8601_utc_ms (s : string) : option Z :=
  if negb ((String.length s =? 20)%nat
           && String.eqb (String.substring 4 1 s) "-"
           && String.eqb (String.substring 7 1 s) "-"
           && String.eqb (String.substring 10 1 s) "T"
           && String.eqb (String.substring 13 1 s) ":"
           && String.eqb (String.substring 16 1 s) ":"
           && String.eqb (String.substring 19 1 s) "Z")
  then None
  else
    match field s 0 4, field s 5 2, field s 8 2,
          field s 11 2, field s 14 2, field s 17 2 with
    | Some y, Some m, Some d, Some hh, Some mm, Some ss =>
        if (1 <=? m) && (m <=? 12) && (1 <=? d) && (d <=? days_in_month y m)
           && (hh <=? 23) && (mm <=? 59) && (ss <=? 59)
        then
          Some ((((days_from_civil y m d * 24 + hh) * 60 + mm) * 60 + ss) * 1000)
        else None
    | _, _, _, _, _, _ => None
    end.

Definition iso8601_utc_getTime (s : string) : Number :=
  match iso8601_utc_ms s with
  | Some ms => of_Z ms
  | None => nan
  end.

(* ================================================================== *)
(** * What the specification asks of the signature check and the retries *)
(* ================================================================== *)

(** The secrets that a check against an HMAC would use. *)
Definition github_secret (this : GithubWebhookHandler) : string :=
  github_clientSecret (authConfig (githubService this)).

Definition jira_secret (this : JiraWebhookHandler) : string :=
  jira_clientSecret (config (syncService this)).

(** "Returns false on any mismatch": with [hmac secret body] the expected
    signature, every other signature is turned down. *)
Definition github_rejects_mismatch
    (hmac : string -> GithubWebhookPayload -> string) : Prop :=
  forall this sig body,
    sig <> Some (hmac (github_secret this) body) ->
    verifySignature this sig body = false.

Definition jira_rejects_mismatch
    (hmac : string -> JiraWebhookPayload -> string) : Prop :=
  forall this sig (body : JiraWebhookPayload),
    sig <> Some (hmac (jira_secret this) body) ->
    isValidSignature this sig = false.

(** A payload whose sync ends in the [catch]: the issue is there, but its
    [fields] or their [status] are not.  The error is the one the first
    failing read raises. *)
Definition sync_error (i : JiraIssue) : option Error :=
  match issue_fields i with
  | None => Some (TypeError_reading "status")
  | Some f =>
      match fields_status f with
      | None => Some (TypeError_reading "name")
      | Some _ => None
      end
  end.

(** The id that [resolveInternalEntity] returns in state [w]. *)
Definition next_id (w : World) : string :=
  "SHIP-" ++ Number_toString (Math_floor (random w (drawn w) * 1000)%float).

(** "Elapsed time from creation to merge, expressed in fractional hours,
    rounded to two decimal places", in exact arithmetic.  An elapsed time
    of [ms] milliseconds is [ms / 3 600 000] hours, that is [ms / 36 000]
    hundredths of an hour; rounding gives a whole number of hundredths.
    The three usual ways to settle a tie: upwards (as [Math.round] does),
    downwards, and to the even neighbour. *)
Definition hundredths_half_up (ms : Z) : Z := (ms + 18000) / 36000.

Definition hundredths_half_down (ms : Z) : Z := - ((18000 - ms) / 36000).

Definition hundredths_half_even (ms : Z) : Z :=
  let k := ms / 36000 in
  let rest := ms mod 36000 in
  if rest <? 18000 then k
  else if 18000 <? rest then k + 1
  else if Z.even k then k else k + 1.

(** The Number that the two-decimal numeral [k / 100] denotes: binary64
    division is correctly rounded, so this is the Number nearest to it. *)
Definition two_decimals (k : Z) : Number := (of_Z k / 100)%float.

(* ================================================================== *)
(** * Inputs of the scenarios *)
(* ================================================================== *)

Definition jira_handler : JiraWebhookHandler :=
  {| syncService :=
       {| config :=
            {| jira_clientId := "shiplog";
               jira_clientSecret := "s3cret";
               redirectUri := "https://shiplog.example/callback";
               scopes := ["read:jira-work"] |} |} |}.

Definition github_handler : GithubWebhookHandler :=
  {| githubService :=
       {| authConfig :=
            {| github_clientId := "shiplog";
               github_clientSecret := "s3cret";
               appId := "4711";
               installationId := None |} |} |}.

(** A handler whose configuration holds no secret. *)
Definition github_handler_without_secret : GithubWebhookHandler :=
  {| githubService :=
       {| authConfig :=
            {| github_clientId := "shiplog";
               github_clientSecret := "";
               appId := "4711";
               installationId := None |} |} |}.

(** A fresh process whose [Math.random] returns [draws 0], [draws 1], ... *)
Definition fresh (draws : nat -> Number) : World := mkWorld [] [] draws 0.

Definition half_then_quarter (n : nat) : Number :=
  match n with
  | O => 0.5%float
  | S _ => 0.25%float
  end.

Definition always_half (n : nat) : Number := 0.5%float.

Definition status_named (label : string) : JiraStatus :=
  {| status_name := label; status_id := "3" |}.

Definition fields_with (label : string) : JiraFields :=
  {| summary := "Ship the importer";
     fields_status := Some (status_named label);
     assignee := None;
     updated := "2024-03-01T08:00:00Z" |}.

Definition issue_labelled (label : string) : JiraIssue :=
  {| issue_id := "10001";
     issue_key := "PROJ-1";
     issue_fields := Some (fields_with label) |}.

Definition issue_event (kind label : string) : JiraWebhookPayload :=
  {| timestamp := 1709280000000%float;
     webhookEvent := kind;
     issue := Some (issue_labelled label);
     user := None |}.

Definition issue_without_fields : JiraIssue :=
  {| issue_id := "10001"; issue_key := "PROJ-1"; issue_fields := None |}.

Definition event_without_fields : JiraWebhookPayload :=
  {| timestamp := 1709280000000%float;
     webhookEvent := "jira:issue_updated";
     issue := Some issue_without_fields;
     user := None |}.

(** The closure that a failed sync of [event_without_fields] queues. *)
Definition stuck_task : RetryTask := {| captured := event_without_fields |}.

Definition merged_pull_request : PullRequest :=
  {| pr_id := 900%float;
     pr_number := 42%float;
     pr_title := "Add importer";
     pr_user := Some {| login := "octocat" |};
     pr_additions := 120%float;
     pr_deletions := 7%float;
     created_at := "2024-03-01T08:00:00Z";
     merged_at := Some "2024-03-01T13:30:00Z" |}.

Definition shiplog_repository : Repository :=
  {| full_name := "shiplog/importer"; repository_id := 77%float |}.

Definition pull_request_closed : GithubWebhookPayload :=
  {| action := Some "closed";
     pull_request := Some merged_pull_request;
     commits := None;
     repository := Some shiplog_repository |}.

Definition ping : GithubWebhookPayload :=
  {| action := None;
     pull_request := None;
     commits := None;
     repository := Some shiplog_repository |}.

Definition signed_headers (kind : string) : Headers :=
  [ ("x-github-event", kind); ("x-hub-signature-256", "sha256=00") ].

Definition unsigned_headers (kind : string) : Headers :=
  [ ("x-github-event", kind) ].

(* ================================================================== *)
(** * The lines a sync writes *)
(* ================================================================== *)

Definition processing_line (payload : JiraWebhookPayload) (i : JiraIssue)
  : Line :=
  mkLine LOG
    [Lit "[JIRA_SYNC] Processing "; Sub (VString (webhookEvent payload));
     Lit " for Issue: "; Sub (VString (issue_key i))].

Definition mapping_line (i : JiraIssue) (v : Value) : Line :=
  mkLine LOG
    [Lit "[JIRA_SYNC] Mapping "; Sub (VString (issue_key i));
     Lit " to Status: "; Sub v].

Definition persist_line (id : string) (v : Value) : Line :=
  mkLine LOG
    [Lit "[DB] PERSIST: Entity "; Sub (VString id);
     Lit " updated to "; Sub v].

Definition failed_line (i : JiraIssue) (e : Error) : Line :=
  mkLine ERROR
    [Lit "[JIRA_SYNC] Failed to sync "; Sub (VString (issue_key i));
     Lit ". Error: "; Sub (VError e)].

Definition queuing_line (i : JiraIssue) : Line :=
  mkLine LOG
    [Lit "[JIRA_RETRY] Queuing "; Sub (VString (issue_key i));
     Lit " for background reconciliation..."].

Definition received_line : Line :=
  mkLine LOG [Lit "[JIRA_WEBHOOK] Received incoming signal from Atlassian..."].

(** The line that [savePRMetadata] writes for [meta]. *)
Definition metadata_line (meta : GithubPRMetadata) : Line :=
  mkLine LOG
    [Lit "[DB] PERSIST: PR #"; Sub (VNumber (meta_number meta));
     Lit " metadata stored. TTM: ";
     Sub (match timeToMergeHours meta with
          | Some h => VNumber h
          | None => VUndefined
          end);
     Lit "h"].

(* ================================================================== *)
(** * The other public methods of the two services *)
(* ================================================================== *)

(** [Array.prototype.join] on an array of strings. *)
Fixpoint join (separator : string) (items : list string) : string :=
  match items with
  | [] => ""
  | [item] => item
  | item :: rest => item ++ separator ++ join separator rest
  end.

(** [private readonly baseUrl] of [JiraIntegrationService]. *)
Definition baseUrl : string := "https://api.atlassian.com/ex/jira/".

(** [public async authorize()]. *)
Definition authorize (this : JiraIntegrationService) : M string :=
  console_log
    [Lit "[JIRA_AUTH] Initiating OAuth2 handshake for Client ID: ";
     Sub (VString (jira_clientId (config this)))] ;;
  ret (baseUrl ++ "authorize?client_id=" ++ jira_clientId (config this)
       ++ "&scope=" ++ join "%20" (scopes (config this))).

(** [public async linkPrToIssue(prId, jiraKey)]. *)
Definition linkPrToIssue (prId jiraKey : string) : M bool :=
  console_log
    [Lit "[JIRA_LINK] Linking PR #"; Sub (VString prId);
     Lit " to JIRA Ticket: "; Sub (VString jiraKey)] ;;
  ret true.

(** [public getInstallationUrl()]. *)
Definition getInstallationUrl (this : GithubIntegrationService) : M string :=
  console_log
    [Lit "[GITHUB_AUTH] Generating installation URL for App ID: ";
     Sub (VString (appId (authConfig this)))] ;;
  ret "https://github.com/apps/shiplog-intel/installations/new".

Record RepoConfig : Type := {
  repoId : Number;
  isEnabled : bool;
  trackingBranches : list string
}.

(** [public async updateRepoConfig(config)]. *)
Definition updateRepoConfig (repo : RepoConfig) : M bool :=
  console_log
    [Lit "[GITHUB_CONFIG] Updating settings for Repo ID: ";
     Sub (VNumber (repoId repo))] ;;
  ret true.

(* ================================================================== *)
(** * Deliveries in a row, and the lines of the GitHub service *)
(* ================================================================== *)

(** The state after [syncIssue] has been called on each payload in turn. *)
Fixpoint deliver (payloads : list JiraWebhookPayload) (w : World) : World :=
  match payloads with
  | [] => w
  | payload :: rest => deliver rest (snd (syncIssue payload w))
  end.

Definition has_issue (payload : JiraWebhookPayload) : bool :=
  match issue payload with
  | Some _ => true
  | None => false
  end.

Definition tracking_line (repo : Repository) (pr : PullRequest) : Line :=
  mkLine LOG
    [Lit "[GITHUB_TRACK] Processing PR #"; Sub (VNumber (pr_number pr));
     Lit " in "; Sub (VString (full_name repo))].

Definition commits_of (payload : GithubWebhookPayload) : list Commit :=
  match commits payload with
  | Some cs => cs
  | None => []
  end.

Definition ingesting_line (payload : GithubWebhookPayload)
    (repo : Repository) : Line :=
  mkLine LOG
    [Lit "[GITHUB_COMMIT] Ingesting ";
     Sub (VNumber (of_Z (Z.of_nat (List.length (commits_of payload)))));
     Lit " commits for "; Sub (VString (full_name repo))].

Definition commit_line (id : list N) (who : CommitAuthor) : Line :=
  mkLine LOG
    [Lit "[GITHUB_COMMIT] Tracking commit: "; Sub (VUnits (firstn 7 id));
     Lit " by "; Sub (VString (name who))].

(** The error that reading a commit raises, when it lacks its [id] or its
    [author]. *)
Definition commit_error (commit : Commit) : option Error :=
  match commit_id commit, commit_author commit with
  | None, _ => Some (TypeError_reading "substring")
  | Some _, None => Some (TypeError_reading "name")
  | Some _, Some _ => None
  end.


(** The lines that the loop over the commits writes, and the error it
    stops on, if any: it goes on up to the first commit that lacks its
    [id] or its [author]. *)
Fixpoint commit_lines (cs : list Commit) : list Line * option Error :=
  match cs with
  | [] => ([], None)
  | c :: rest =>
      match commit_id c, commit_author c with
      | Some id, Some who =>
          (commit_line id who :: fst (commit_lines rest),
           snd (commit_lines rest))
      | _, _ => ([], commit_error c)
      end
  end.

(** The error that the method a request is routed to raises on its body,
    if any: a pull request is read through [repository] and then through
    its [user], a push through [repository] and then through its commits;
    other kinds do not read the body. *)
Definition body_error (headers : Headers) (body : GithubWebhookPayload)
  : option Error :=
  if is_kind (own_property headers "x-github-event") "pull_request" then
    match pull_request body with
    | None => None
    | Some pr =>
        match repository body, pr_user pr with
        | None, _ => Some (TypeError_reading "full_name")
        | Some _, None => Some (TypeError_reading "login")
        | Some _, Some _ => None
        end
    end
  else if is_kind (own_property headers "x-github-event") "push" then
    match repository body with
    | None => Some (TypeError_reading "full_name")
    | Some _ => snd (commit_lines (commits_of body))
    end
  else None.

(** Whether a request reaches [savePRMetadata]: it is signed, of kind
    [pull_request], and its body carries a pull request with its [user]
    and the [repository]. *)
Definition tracks_a_pull_request
    (this : GithubWebhookHandler) (headers : Headers)
    (body : GithubWebhookPayload) : bool :=
  verifySignature this (own_property headers "x-hub-signature-256") body
  && is_kind (own_property headers "x-github-event") "pull_request"
  && match pull_request body, repository body with
     | Some pr, Some _ =>
         match pr_user pr with
         | Some _ => true
         | None => false
         end
     | _, _ => false
     end.

(** A pull request created at 08:00:00 and merged the same day at the
    given time, and what [trackPullRequest] stores as its
    [timeToMergeHours]. *)
Definition pull_request_merged_at (merged : string) : GithubWebhookPayload :=
  {| action := Some "closed";
     pull_request :=
       Some {| pr_id := 903%float;
               pr_number := 45%float;
               pr_title := "Bump version";
               pr_user := Some {| login := "octocat" |};
               pr_additions := 1%float;
               pr_deletions := 1%float;
               created_at := "2024-03-01T08:00:00Z";
               merged_at := Some merged |};
     commits := None;
     repository := Some shiplog_repository |}.

Definition stored_hours (payload : GithubWebhookPayload) : option Number :=
  match fst (trackPullRequest iso8601_utc_getTime payload
               (fresh always_half)) with
  | Normal (Some meta) => timeToMergeHours meta
  | _ => None
  end.

Definition elapsed_ms (payload : GithubWebhookPayload) : option Z :=
  match pull_request payload with
  | Some pr =>
      match iso8601_utc_ms (created_at pr), merged_at pr with
      | Some created, Some m =>
          match iso8601_utc_ms m with
          | Some merged => Some (merged - created)
          | None => None
          end
      | _, _ => None
      end
  | None => None
  end.



(** More inputs of the scenarios. *)

Definition open_pull_request : PullRequest :=
  {| pr_id := 901%float;
     pr_number := 43%float;
     pr_title := "Draft exporter";
     pr_user := Some {| login := "octocat" |};
     pr_additions := 12%float;
     pr_deletions := 0%float;
     created_at := "2024-03-02T09:15:00Z";
     merged_at := None |}.

Definition pull_request_opened : GithubWebhookPayload :=
  {| action := Some "opened";
     pull_request := Some open_pull_request;
     commits := None;
     repository := Some shiplog_repository |}.

Definition undated_pull_request : PullRequest :=
  {| pr_id := 902%float;
     pr_number := 44%float;
     pr_title := "Fix typo";
     pr_user := Some {| login := "octocat" |};
     pr_additions := 1%float;
     pr_deletions := 1%float;
     created_at := "yesterday";
     merged_at := Some "2024-03-01T13:30:00Z" |}.

Definition undated_pull_request_closed : GithubWebhookPayload :=
  {| action := Some "closed";
     pull_request := Some undated_pull_request;
     commits := None;
     repository := Some shiplog_repository |}.

Definition event_without_issue : JiraWebhookPayload :=
  {| timestamp := 1709280000000%float;
     webhookEvent := "jira:issue_updated";
     issue := None;
     user := None |}.

Definition jira_service (secret redirect : string) : JiraIntegrationService :=
  {| config :=
       {| jira_clientId := "shiplog";
          jira_clientSecret := secret;
          redirectUri := redirect;
          scopes := ["read:jira-work"; "write:jira-work"] |} |}.

(* ================================================================== *)
(** * Facts about the run time *)
(* ================================================================== *)

Lemma truthy_optional (sig : option string) :
  truthy (of_optional sig) = true <-> exists s, sig = Some s /\ s <> "".
Proof.
  destruct sig as [s|]; simpl.
  - rewrite negb_true_iff. split.
    + intros H. exists s. split; [reflexivity|].
      intros ->. discriminate.
    + intros (s' & E & Hs). injection E as <-.
      now apply String.eqb_neq.
  - split; [discriminate|]. intros (s & E & _). discriminate.
Qed.

Lemma persistence_writes_app c1 c2 q r d :
  persistence_writes (mkWorld (c1 ++ c2) q r d)
  = (filter is_persist_line c1 ++ filter is_persist_line c2)%list.
Proof. unfold persistence_writes; simpl. apply filter_app. Qed.

(** The writes among lines appended to the console one after another. *)
Ltac writes_of_appended :=
  unfold persistence_writes; simpl;
  rewrite <- ?app_assoc, ?filter_app; simpl.

Lemma latest_newest {A} (f : Line -> option A) older l a :
  f l = Some a -> latest f (rev (older ++ [l])) = Some a.
Proof. intros H. rewrite rev_unit. simpl. now rewrite H. Qed.

Lemma stored_status_of_persist id v :
  stored_status_of id (persist_line id v) = Some v.
Proof. unfold stored_status_of; simpl. now rewrite String.eqb_refl. Qed.

(* ================================================================== *)
(** * What one call of [syncIssue] does *)
(* ================================================================== *)

Section SyncIssue.

Variable payload : JiraWebhookPayload.
Variable w : World.

(** No issue: the read of [issue.key] throws before anything is written. *)
Lemma syncIssue_throws :
  issue payload = None ->
  syncIssue payload w = (Throw (TypeError_reading "key"), w).
Proof. intros E. unfold syncIssue, bind, read. now rewrite E. Qed.

(** A complete issue: three lines, the last one the write; nothing is
    queued. *)
Lemma syncIssue_succeeds i f s :
  issue payload = Some i ->
  issue_fields i = Some f ->
  fields_status f = Some s ->
  syncIssue payload w =
    (Normal {| status := SUCCESS; externalId := issue_id i;
               internalId := Some (next_id w); error := None |},
     mkWorld
       (console w ++
        [processing_line payload i;
         mapping_line i (mapJiraStatusToInternal (status_name s));
         persist_line (next_id w) (mapJiraStatusToInternal (status_name s))])
       (retryQueue w) (random w) (S (drawn w))).
Proof.
  intros Ei Ef Es.
  unfold syncIssue, try_catch, bind, read. rewrite Ei. simpl.
  rewrite Ef. simpl. rewrite Es. simpl.
  unfold next_id, processing_line, mapping_line, persist_line.
  now rewrite <- !app_assoc.
Qed.

(** An issue without [fields] or [status]: three lines, none of them a
    write, and the payload is queued once. *)
Lemma syncIssue_queues i e :
  issue payload = Some i ->
  sync_error i = Some e ->
  syncIssue payload w =
    (Normal {| status := RETRY_QUEUED; externalId := issue_id i;
               internalId := None; error := Some e |},
     mkWorld
       (console w ++
        [processing_line payload i; failed_line i e; queuing_line i])
       (retryQueue w ++ [{| captured := payload |}])
       (random w) (S (drawn w))).
Proof.
  intros Ei Ee.
  unfold syncIssue, queueForRetry, try_catch, bind, read. rewrite Ei. simpl.
  unfold sync_error in Ee.
  unfold processing_line, failed_line, queuing_line.
  destruct (issue_fields i) as [f|]; simpl.
  - destruct (fields_status f) as [s|]; [discriminate|].
    injection Ee as <-. simpl.
    now rewrite <- !app_assoc.
  - injection Ee as <-.
    now rewrite <- !app_assoc.
Qed.

(** Every issue is of one of the two kinds. *)
Lemma sync_error_cases i :
  (exists f s, issue_fields i = Some f /\ fields_status f = Some s)
  \/ (exists e, sync_error i = Some e).
Proof.
  unfold sync_error.
  destruct (issue_fields i) as [f|]; [|right; eauto].
  destruct (fields_status f) as [s|] eqn:Es; [left; eauto|right; eauto].
Qed.

End SyncIssue.

(** A payload that fails keeps failing: each call of its closure queues
    the same closure once more. *)
Lemma rerun_requeues payload i e w n :
  issue payload = Some i ->
  sync_error i = Some e ->
  retryQueue (rerun n {| captured := payload |} w)
  = (retryQueue w ++ repeat {| captured := payload |} n)%list.
Proof.
  intros Ei Ee. induction n as [|n IH]; simpl.
  - now rewrite app_nil_r.
  - unfold run_task; simpl.
    rewrite (syncIssue_queues payload _ i e Ei Ee); simpl.
    rewrite IH, <- app_assoc. f_equal. symmetry. apply repeat_cons.
Qed.

(* ================================================================== *)
(** * Signature verification *)
(* ================================================================== *)

(** A check that lets two different signatures pass turns down not every
    signature other than the expected one. *)
Lemma two_forgeries_pass (check : option string -> bool) (expected : string) :
  check (Some "forged-a") = true ->
  check (Some "forged-b") = true ->
  ~ (forall sig, sig <> Some expected -> check sig = false).
Proof.
  intros Ha Hb H.
  destruct (string_dec "forged-a" expected) as [E|N].
  - rewrite H in Hb; [discriminate|]. rewrite <- E. discriminate.
  - rewrite H in Ha; [discriminate|]. intros E. injection E as E. contradiction.
Qed.

(** C1, counterexample.  Both handlers accept a signature that is no HMAC
    of anything, also when no secret is configured: whatever function
    [hmac] computes the expected signature, two different signatures both
    pass, and at most one of them can be the expected one. *)
Lemma forged_signature_is_accepted :
  verifySignature github_handler (Some "sha256=00") pull_request_closed = true
  /\ verifySignature github_handler_without_secret (Some "sha256=00")
       pull_request_closed = true
  /\ isValidSignature jira_handler (Some "not-a-signature") = true
  /\ ~ (exists hmac, github_rejects_mismatch hmac)
  /\ ~ (exists hmac, jira_rejects_mismatch hmac).
Proof.
  do 3 (split; [reflexivity|]). split.
  - intros [hmac H].
    apply (two_forgeries_pass
             (fun sig => verifySignature github_handler sig ping)
             (hmac (github_secret github_handler) ping));
      [reflexivity|reflexivity|].
    intros sig. apply H.
  - intros [hmac H].
    apply (two_forgeries_pass
             (fun sig => isValidSignature jira_handler sig)
             (hmac (jira_secret jira_handler)
                (issue_event "jira:issue_updated" "Done")));
      [reflexivity|reflexivity|].
    intros sig. apply H.
Qed.

(** C1, as the code has it.  [verifySignature] and [isValidSignature]
    consult neither the secret nor the body: they return true exactly when
    a signature is present and not empty, and false when it is absent or
    empty. *)
Theorem signature_check_is_presence_check
    (gh : GithubWebhookHandler) (jh : JiraWebhookHandler)
    (sig : option string) (body : GithubWebhookPayload) :
  (verifySignature gh sig body = true <-> exists s, sig = Some s /\ s <> "")
  /\ (isValidSignature jh sig = true <-> exists s, sig = Some s /\ s <> "")
  /\ verifySignature gh None body = false
  /\ verifySignature gh (Some "") body = false
  /\ isValidSignature jh None = false
  /\ isValidSignature jh (Some "") = false.
Proof.
  split; [apply truthy_optional|]. split; [apply truthy_optional|].
  repeat split.
Qed.

(* ================================================================== *)
(** * Entity resolution *)
(* ================================================================== *)

(** C2, counterexample.  Two calls in a row for the same key, the second
    in the state the first one left, return two different ids when
    [Math.random] returns 0.5 and then 0.25; the first call leaves the
    console and the retry queue as they were. *)
Lemma resolve_twice_gives_two_ids :
  fst (resolveInternalEntity "PROJ-1" (fresh half_then_quarter))
  = Normal "SHIP-500"
  /\ fst (resolveInternalEntity "PROJ-1"
            (snd (resolveInternalEntity "PROJ-1" (fresh half_then_quarter))))
     = Normal "SHIP-250"
  /\ console (snd (resolveInternalEntity "PROJ-1" (fresh half_then_quarter))) = []
  /\ retryQueue (snd (resolveInternalEntity "PROJ-1" (fresh half_then_quarter))) = [].
Proof. vm_compute. repeat split; reflexivity. Qed.

(** C2, as the code has it.  [resolveInternalEntity] keeps no mapping and
    does not look at the key: each call returns [SHIP-] followed by the
    floor of a thousand times the next value of [Math.random], and changes
    nothing but the position in the random source.  A second call returns
    the id of the first exactly when the two draws print the same
    number. *)
Theorem resolve_draws_an_id_per_call (key1 key2 : string) (w : World) :
  fst (resolveInternalEntity key1 w) = Normal (next_id w)
  /\ snd (resolveInternalEntity key1 w)
     = mkWorld (console w) (retryQueue w) (random w) (S (drawn w))
  /\ fst (resolveInternalEntity key2 (snd (resolveInternalEntity key1 w)))
     = Normal (next_id (snd (resolveInternalEntity key1 w)))
  /\ (next_id (snd (resolveInternalEntity key1 w)) = next_id w
      <-> Number_toString (Math_floor (random w (S (drawn w)) * 1000)%float)
          = Number_toString (Math_floor (random w (drawn w) * 1000)%float)).
Proof.
  repeat split; try reflexivity.
  - unfold next_id; simpl. intros E. now injection E.
  - unfold next_id; simpl. now intros ->.
Qed.

(* ================================================================== *)
(** * Status normalization *)
(* ================================================================== *)

(** The four labels of the table. *)
Lemma mapJiraStatusToInternal_table :
  mapJiraStatusToInternal "To Do" = VString "BACKLOG"
  /\ mapJiraStatusToInternal "In Progress" = VString "ACTIVE"
  /\ mapJiraStatusToInternal "Done" = VString "RELEASED"
  /\ mapJiraStatusToInternal "Closed" = VString "RELEASED".
Proof. repeat split. Qed.

(** A label that is neither in the table nor a member of
    [Object.prototype] falls back to UNKNOWN. *)
Lemma mapJiraStatusToInternal_fallback (label : string) :
  own_property statusMap label = None ->
  inherits label = false ->
  mapJiraStatusToInternal label = VString "UNKNOWN".
Proof.
  intros Hown Hinh. unfold mapJiraStatusToInternal, get.
  now rewrite Hown, Hinh.
Qed.

(** The function on every label: the table entry when there is one,
    otherwise the member of [Object.prototype] of that name when there is
    one, otherwise UNKNOWN.  It never throws. *)
Theorem mapJiraStatusToInternal_on_every_label (label : string) :
  mapJiraStatusToInternal label
  = match own_property statusMap label with
    | Some v => VString v
    | None => if inherits label then VInherited label else VString "UNKNOWN"
    end.
Proof.
  unfold mapJiraStatusToInternal, get.
  destruct (own_property statusMap label) as [v|] eqn:Hown.
  - unfold statusMap in Hown; simpl in Hown.
    repeat match type of Hown with
           | (if ?b then _ else _) = _ => destruct b
           end;
      try discriminate; injection Hown as <-; reflexivity.
  - destruct (inherits label); reflexivity.
Qed.

(** C6, at the failing input.  The label ["constructor"] is not in the
    table, yet the lookup [statusMap[status]] finds the member of that
    name on [Object.prototype]; it is truthy, so the fallback is not
    taken and the result is that function object, not UNKNOWN. *)
Theorem inherited_label_is_not_unknown :
  own_property statusMap "constructor" = None
  /\ mapJiraStatusToInternal "constructor" = VInherited "constructor"
  /\ mapJiraStatusToInternal "constructor" <> VString "UNKNOWN".
Proof. repeat split. discriminate. Qed.

(* ================================================================== *)
(** * Persisting the status *)
(* ================================================================== *)

(** C3, counterexample.  With [Math.random] at 0.5 both events resolve to
    entity SHIP-500.  The first, labelled Done, stores RELEASED; the
    second, labelled Blocked, normalizes to UNKNOWN, and UNKNOWN is what
    is stored for SHIP-500 afterwards. *)
Lemma unknown_overwrites_released :
  mapJiraStatusToInternal "Blocked" = VString "UNKNOWN"
  /\ persisted_status "SHIP-500"
       (snd (syncIssue (issue_event "jira:issue_updated" "Done")
               (fresh always_half)))
     = Some (VString "RELEASED")
  /\ persisted_status "SHIP-500"
       (snd (syncIssue (issue_event "jira:issue_updated" "Blocked")
               (snd (syncIssue (issue_event "jira:issue_updated" "Done")
                       (fresh always_half)))))
     = Some (VString "UNKNOWN").
Proof. vm_compute. repeat split; reflexivity. Qed.

(** C3, as the code has it.  [persistUpdate] writes without reading what
    was stored: after a sync of a complete issue the status stored for the
    resolved entity is the normalized label of that event, UNKNOWN
    included, whatever was stored before. *)
Theorem sync_stores_the_normalized_label
    (payload : JiraWebhookPayload) (w : World)
    (i : JiraIssue) (f : JiraFields) (s : JiraStatus) :
  issue payload = Some i ->
  issue_fields i = Some f ->
  fields_status f = Some s ->
  fst (syncIssue payload w)
  = Normal {| status := SUCCESS; externalId := issue_id i;
              internalId := Some (next_id w); error := None |}
  /\ persisted_status (next_id w) (snd (syncIssue payload w))
     = Some (mapJiraStatusToInternal (status_name s)).
Proof.
  intros Ei Ef Es. rewrite (syncIssue_succeeds payload w i f s Ei Ef Es).
  split; [reflexivity|]. unfold persisted_status; simpl.
  change (console w ++ [?a; ?b; ?c])%list
    with (console w ++ [a; b] ++ [c])%list.
  rewrite app_assoc. apply latest_newest, stored_status_of_persist.
Qed.

(* ================================================================== *)
(** * One write or one retry *)
(* ================================================================== *)

(** C7.  A call of [syncIssue] that returns SUCCESS has made exactly one
    persistence write and queued nothing; one that returns RETRY_QUEUED
    has queued exactly one retry and written nothing; FAILURE is never
    returned; a call that throws has done neither. *)
Theorem sync_writes_once_or_queues_once
    (payload : JiraWebhookPayload) (w : World) :
  match syncIssue payload w with
  | (Normal r, w') =>
      match status r with
      | SUCCESS =>
          (exists l, persistence_writes w' = persistence_writes w ++ [l])%list
          /\ retryQueue w' = retryQueue w
      | RETRY_QUEUED =>
          retryQueue w' = (retryQueue w ++ [{| captured := payload |}])%list
          /\ persistence_writes w' = persistence_writes w
      | FAILURE => False
      end
  | (Throw _, w') =>
      persistence_writes w' = persistence_writes w
      /\ retryQueue w' = retryQueue w
  end.
Proof.
  destruct (issue payload) as [i|] eqn:Ei.
  - destruct (sync_error_cases i) as [(f & s & Ef & Es)|(e & Ee)].
    + rewrite (syncIssue_succeeds payload w i f s Ei Ef Es); simpl.
      split; [|reflexivity].
      rewrite persistence_writes_app; simpl. eauto.
    + rewrite (syncIssue_queues payload w i e Ei Ee); simpl.
      split; [reflexivity|].
      rewrite persistence_writes_app; simpl. apply app_nil_r.
  - rewrite (syncIssue_throws payload w Ei). split; reflexivity.
Qed.

(* ================================================================== *)
(** * Retries *)
(* ================================================================== *)

(** C5, counterexample.  A sync of [event_without_fields] fails, and so
    does every call of the closure it queued.  The closure queued by the
    second attempt is the one queued by the first, so no attempt count or
    delay read off the task is larger on the second; and there is no
    number of attempts after which the queue stops growing. *)
Lemma retries_neither_count_nor_stop :
  ~ (exists attempt_count : RetryTask -> nat,
       (attempt_count
          (nth 0 (retryQueue (rerun 2 stuck_task (fresh always_half)))
             stuck_task)
        < attempt_count
            (nth 1 (retryQueue (rerun 2 stuck_task (fresh always_half)))
               stuck_task))%nat)
  /\ ~ (exists max : nat,
          forall n, (max < n)%nat ->
            retryQueue (rerun (S n) stuck_task (fresh always_half))
            = retryQueue (rerun n stuck_task (fresh always_half))).
Proof.
  split.
  - intros [attempt_count H]. vm_compute in H. lia.
  - intros [max H]. specialize (H (S max) (Nat.lt_succ_diag_r max)).
    unfold stuck_task in H.
    rewrite !(rerun_requeues event_without_fields _ _ (fresh always_half) _
                eq_refl eq_refl) in H.
    apply (f_equal (@List.length _)) in H.
    rewrite !length_app, !repeat_length in H. lia.
Qed.

(** C5, as the code has it.  A retry task is the closure over the payload
    and nothing else.  For a payload whose sync fails, every call of the
    closure returns RETRY_QUEUED again and appends the same closure once
    more: after [n] attempts the queue holds [n] more copies of it, for
    every [n]. *)
Theorem failed_sync_requeues_the_same_task
    (payload : JiraWebhookPayload) (i : JiraIssue) (e : Error)
    (w : World) (n : nat) :
  issue payload = Some i ->
  sync_error i = Some e ->
  fst (run_task {| captured := payload |}
         (rerun n {| captured := payload |} w))
  = Normal {| status := RETRY_QUEUED; externalId := issue_id i;
              internalId := None; error := Some e |}
  /\ retryQueue (rerun n {| captured := payload |} w)
     = (retryQueue w ++ repeat {| captured := payload |} n)%list
  /\ retryQueue (rerun (S n) {| captured := payload |} w)
     = (retryQueue (rerun n {| captured := payload |} w)
        ++ [{| captured := payload |}])%list.
Proof.
  intros Ei Ee. split; [|split].
  - unfold run_task; simpl.
    now rewrite (syncIssue_queues payload _ i e Ei Ee).
  - now apply (rerun_requeues payload i e).
  - simpl. unfold run_task; simpl.
    now rewrite (syncIssue_queues payload _ i e Ei Ee).
Qed.

(* ================================================================== *)
(** * Pull requests *)
(* ================================================================== *)

Section WithDateReader.

Variable Date_getTime : string -> Number.

(** C10.  Without a [pull_request] member [trackPullRequest] returns
    [null] and leaves the process as it was: no line is written, so
    [savePRMetadata] has not run, and no random value is drawn. *)
Theorem trackPullRequest_without_pull_request
    (payload : GithubWebhookPayload) (w : World) :
  pull_request payload = None ->
  trackPullRequest Date_getTime payload w = (Normal None, w)
  /\ persistence_writes (snd (trackPullRequest Date_getTime payload w))
     = persistence_writes w.
Proof.
  intros E. unfold trackPullRequest. rewrite E. split; reflexivity.
Qed.

(** A pull request that comes with its user and with the repository:
    two lines are written, the second one the write of the metadata that
    is returned, which copies the pull request member by member; one
    random value is drawn. *)
Lemma trackPullRequest_stores
    (payload : GithubWebhookPayload) (pr : PullRequest)
    (repo : Repository) (user : GithubUser) (w : World) :
  pull_request payload = Some pr ->
  repository payload = Some repo ->
  pr_user pr = Some user ->
  exists meta,
    trackPullRequest Date_getTime payload w
    = (Normal (Some meta),
       mkWorld (console w ++ [tracking_line repo pr; metadata_line meta])
         (retryQueue w) (random w) (S (drawn w)))
    /\ timeToMergeHours meta
       = Some (Math_round
                 (match merged_at pr with
                  | Some m =>
                      if truthy (VString m)
                      then (Date_getTime m - Date_getTime (created_at pr))
                           / (1000 * 60 * 60)
                      else 0
                  | None => 0
                  end * 100) / 100)%float
    /\ meta_id meta = pr_id pr
    /\ meta_number meta = pr_number pr
    /\ meta_title meta = pr_title pr
    /\ author meta = login user
    /\ meta_additions meta = pr_additions pr
    /\ meta_deletions meta = pr_deletions pr
    /\ createdAt meta = created_at pr
    /\ mergedAt meta = merged_at pr.
Proof.
  intros Epr Erepo Euser. unfold trackPullRequest. rewrite Epr.
  unfold bind, read, console_log, write_line, fetchReviewCycles,
    savePRMetadata, Math_random, ret.
  rewrite Erepo; simpl. rewrite Euser; simpl.
  eexists. split.
  - apply f_equal2; [reflexivity|].
    unfold tracking_line, metadata_line; simpl.
    now rewrite <- app_assoc.
  - split.
    + simpl. destruct (merged_at pr) as [m|]; [|reflexivity].
      simpl. destruct (String.eqb m ""); reflexivity.
    + repeat split.
Qed.

Lemma two_decimals_differ (j k : Z) :
  Prim2SF (two_decimals j) <> Prim2SF (two_decimals k) ->
  two_decimals j <> two_decimals k.
Proof. intros N E. apply N. now rewrite E. Qed.

(** C8, at failing inputs.  Three pull requests created at 08:00:00.
    Merged at 09:00:18, after 1.005 hours, the first is stored with 1
    where rounding with ties upwards gives 1.01.  Merged at 09:00:54,
    after 1.015 hours, the second is stored with 1.01 where rounding
    with ties upwards or to the even neighbour gives 1.02.  Merged at
    08:00:18, after 0.005 hours, the third is stored with 0.01 where
    rounding with ties downwards gives 0.  So what is stored is the
    elapsed time rounded to two decimals under none of these rules. *)
Theorem time_to_merge_follows_no_rounding_rule :
  (elapsed_ms (pull_request_merged_at "2024-03-01T09:00:18Z") = Some 3618000
   /\ stored_hours (pull_request_merged_at "2024-03-01T09:00:18Z")
      = Some (two_decimals 100)
   /\ hundredths_half_up 3618000 = 101
   /\ two_decimals 100 <> two_decimals 101)
  /\ (elapsed_ms (pull_request_merged_at "2024-03-01T09:00:54Z")
      = Some 3654000
      /\ stored_hours (pull_request_merged_at "2024-03-01T09:00:54Z")
         = Some (two_decimals 101)
      /\ hundredths_half_up 3654000 = 102
      /\ hundredths_half_even 3654000 = 102
      /\ two_decimals 101 <> two_decimals 102)
  /\ (elapsed_ms (pull_request_merged_at "2024-03-01T08:00:18Z")
      = Some 18000
      /\ stored_hours (pull_request_merged_at "2024-03-01T08:00:18Z")
         = Some (two_decimals 1)
      /\ hundredths_half_down 18000 = 0
      /\ two_decimals 1 <> two_decimals 0).
Proof.
  repeat split; try (vm_compute; reflexivity);
    apply two_decimals_differ; vm_compute; discriminate.
Qed.

(** A pull request merged five and a half hours after its creation, that
    is, whose two time values are 19 800 000 ms apart, is stored with
    5.5, in one write. *)
Theorem five_and_a_half_hours_are_stored_as_such
    (payload : GithubWebhookPayload) (pr : PullRequest)
    (repo : Repository) (user : GithubUser) (m : string) (w : World) :
  pull_request payload = Some pr ->
  repository payload = Some repo ->
  pr_user pr = Some user ->
  merged_at pr = Some m ->
  m <> "" ->
  (Date_getTime m - Date_getTime (created_at pr))%float = 19800000%float ->
  exists meta,
    fst (trackPullRequest Date_getTime payload w) = Normal (Some meta)
    /\ timeToMergeHours meta = Some 5.5%float
    /\ persistence_writes (snd (trackPullRequest Date_getTime payload w))
       = (persistence_writes w ++ [metadata_line meta])%list.
Proof.
  intros Epr Erepo Euser Em Hm Hd. apply String.eqb_neq in Hm.
  destruct (trackPullRequest_stores payload pr repo user w Epr Erepo Euser)
    as (meta & E & T & _).
  exists meta. rewrite E; simpl. split; [reflexivity|]. split.
  - rewrite T, Em; simpl. rewrite Hm; simpl. rewrite Hd. reflexivity.
  - rewrite persistence_writes_app; simpl. reflexivity.
Qed.

(* ================================================================== *)
(** * Intake *)
(* ================================================================== *)

(** C4.  A request whose signature check fails is answered UNAUTHORIZED
    by the GitHub handler and 401 by the Jira handler; neither handler
    queues a retry, makes a persistence write or draws a random value for
    it. *)
Theorem invalid_signature_is_rejected_without_effects
    (gh : GithubWebhookHandler) (headers : Headers)
    (gbody : GithubWebhookPayload)
    (jh : JiraWebhookHandler) (jbody : JiraWebhookPayload)
    (sig : option string) (w : World) :
  (verifySignature gh (own_property headers "x-hub-signature-256") gbody
   = false ->
   fst (handleEvent Date_getTime gh headers gbody w)
   = Normal {| response_status := "UNAUTHORIZED" |}
   /\ retryQueue (snd (handleEvent Date_getTime gh headers gbody w))
      = retryQueue w
   /\ persistence_writes (snd (handleEvent Date_getTime gh headers gbody w))
      = persistence_writes w
   /\ drawn (snd (handleEvent Date_getTime gh headers gbody w)) = drawn w)
  /\
  (isValidSignature jh sig = false ->
   fst (handleWebhook jh jbody sig w) = Normal {| statusCode := 401 |}
   /\ retryQueue (snd (handleWebhook jh jbody sig w)) = retryQueue w
   /\ persistence_writes (snd (handleWebhook jh jbody sig w))
      = persistence_writes w
   /\ drawn (snd (handleWebhook jh jbody sig w)) = drawn w).
Proof.
  split; intros H.
  - unfold handleEvent, bind; simpl. rewrite H; simpl.
    repeat split.
    writes_of_appended. apply app_nil_r.
  - unfold handleWebhook, bind; simpl. rewrite H; simpl.
    repeat split.
    writes_of_appended. apply app_nil_r.
Qed.

(** A signed webhook with a complete issue, whatever its kind. *)
Lemma handleWebhook_complete
    (jh : JiraWebhookHandler) (jbody : JiraWebhookPayload)
    (sig : option string) (w : World)
    (i : JiraIssue) (f : JiraFields) (s : JiraStatus) :
  isValidSignature jh sig = true ->
  issue jbody = Some i ->
  issue_fields i = Some f ->
  fields_status f = Some s ->
  handleWebhook jh jbody sig w =
    (Normal {| statusCode := 200 |},
     mkWorld
       (console w ++
        [received_line;
         processing_line jbody i;
         mapping_line i (mapJiraStatusToInternal (status_name s));
         persist_line (next_id w) (mapJiraStatusToInternal (status_name s))])
       (retryQueue w) (random w) (S (drawn w))).
Proof.
  intros Hsig Ei Ef Es.
  unfold handleWebhook, bind, console_log, write_line. rewrite Hsig. simpl.
  rewrite (syncIssue_succeeds jbody _ i f s Ei Ef Es). simpl.
  unfold ret, next_id; simpl. now rewrite <- app_assoc.
Qed.

(** A signed webhook whose issue lacks [fields] or [status] is answered
    202 after one retry was queued and nothing written. *)
Theorem handleWebhook_accepts_for_retry
    (jh : JiraWebhookHandler) (jbody : JiraWebhookPayload)
    (sig : option string) (w : World) (i : JiraIssue) (e : Error) :
  isValidSignature jh sig = true ->
  issue jbody = Some i ->
  sync_error i = Some e ->
  fst (handleWebhook jh jbody sig w) = Normal {| statusCode := 202 |}
  /\ retryQueue (snd (handleWebhook jh jbody sig w))
     = (retryQueue w ++ [{| captured := jbody |}])%list
  /\ persistence_writes (snd (handleWebhook jh jbody sig w))
     = persistence_writes w.
Proof.
  intros Hsig Ei Ee.
  assert (handleWebhook jh jbody sig w
          = (Normal {| statusCode := 202 |},
             mkWorld
               (console w ++
                [received_line; processing_line jbody i;
                 failed_line i e; queuing_line i])
               (retryQueue w ++ [{| captured := jbody |}])
               (random w) (S (drawn w)))) as ->.
  { unfold handleWebhook, bind, console_log, write_line.
    rewrite Hsig. simpl.
    rewrite (syncIssue_queues jbody _ i e Ei Ee). simpl.
    unfold ret; simpl. now rewrite <- app_assoc. }
  simpl. repeat split.
  rewrite persistence_writes_app; simpl. apply app_nil_r.
Qed.

(** C9, as the code has it.  A signed GitHub event whose kind is neither
    [pull_request] nor [push] (a missing kind included) is answered
    ACCEPTED with no persistence write and no retry.  The Jira handler
    does not look at the kind: a signed webhook carrying a complete issue,
    [jira:issue_deleted] like any other, is synced, which makes exactly one
    persistence write, and is answered 200. *)
Theorem untracked_github_kind_is_a_no_op_and_jira_syncs_every_kind
    (gh : GithubWebhookHandler) (headers : Headers)
    (gbody : GithubWebhookPayload)
    (jh : JiraWebhookHandler) (jbody : JiraWebhookPayload)
    (sig : option string) (w : World)
    (i : JiraIssue) (f : JiraFields) (s : JiraStatus) :
  (verifySignature gh (own_property headers "x-hub-signature-256") gbody
   = true ->
   is_kind (own_property headers "x-github-event") "pull_request" = false ->
   is_kind (own_property headers "x-github-event") "push" = false ->
   fst (handleEvent Date_getTime gh headers gbody w)
   = Normal {| response_status := "ACCEPTED" |}
   /\ persistence_writes (snd (handleEvent Date_getTime gh headers gbody w))
      = persistence_writes w
   /\ retryQueue (snd (handleEvent Date_getTime gh headers gbody w))
      = retryQueue w)
  /\
  (isValidSignature jh sig = true ->
   issue jbody = Some i ->
   issue_fields i = Some f ->
   fields_status f = Some s ->
   fst (handleWebhook jh jbody sig w) = Normal {| statusCode := 200 |}
   /\ persistence_writes (snd (handleWebhook jh jbody sig w))
      = (persistence_writes w
         ++ [persist_line (next_id w)
               (mapJiraStatusToInternal (status_name s))])%list
   /\ retryQueue (snd (handleWebhook jh jbody sig w)) = retryQueue w).
Proof.
  split.
  - intros Hsig Hpr Hpush.
    unfold handleEvent, bind; simpl. rewrite Hsig, Hpr, Hpush; simpl.
    repeat split.
    writes_of_appended. apply app_nil_r.
  - intros Hsig Ei Ef Es.
    rewrite (handleWebhook_complete jh jbody sig w i f s Hsig Ei Ef Es); simpl.
    repeat split.
    rewrite persistence_writes_app; simpl. reflexivity.
Qed.

End WithDateReader.

(** C9, counterexample.  A signed [jira:issue_deleted] webhook is answered
    200 after a persistence write for SHIP-500. *)
Lemma deleted_issue_is_written :
  isValidSignature jira_handler (Some "sha256=00") = true
  /\ fst (handleWebhook jira_handler (issue_event "jira:issue_deleted" "Done")
            (Some "sha256=00") (fresh always_half))
     = Normal {| statusCode := 200 |}
  /\ persistence_writes
       (snd (handleWebhook jira_handler
               (issue_event "jira:issue_deleted" "Done")
               (Some "sha256=00") (fresh always_half)))
     = [persist_line "SHIP-500" (VString "RELEASED")].
Proof. vm_compute. repeat split; reflexivity. Qed.

(* ================================================================== *)
(** * The theorems at the inputs of the scenarios *)
(* ================================================================== *)

(** An issue-updated event labelled In Progress: ACTIVE is stored. *)
Lemma in_progress_is_stored_as_active :
  issue (issue_event "jira:issue_updated" "In Progress")
  = Some (issue_labelled "In Progress")
  /\ issue_fields (issue_labelled "In Progress")
     = Some (fields_with "In Progress")
  /\ fields_status (fields_with "In Progress")
     = Some (status_named "In Progress")
  /\ persisted_status "SHIP-500"
       (snd (syncIssue (issue_event "jira:issue_updated" "In Progress")
               (fresh always_half)))
     = Some (VString "ACTIVE").
Proof.
  do 3 (split; [reflexivity|]).
  exact (proj2 (sync_stores_the_normalized_label
                  (issue_event "jira:issue_updated" "In Progress")
                  (fresh always_half) _ _ _ eq_refl eq_refl eq_refl)).
Defined.

(** A GitHub push without the signature header, and a Jira webhook with
    an empty signature. *)
Lemma unsigned_requests_are_rejected :
  verifySignature github_handler
    (own_property (unsigned_headers "push") "x-hub-signature-256") ping
  = false
  /\ isValidSignature jira_handler (Some "") = false
  /\ fst (handleEvent iso8601_utc_getTime github_handler
            (unsigned_headers "push") ping (fresh always_half))
     = Normal {| response_status := "UNAUTHORIZED" |}
  /\ fst (handleWebhook jira_handler
            (issue_event "jira:issue_updated" "Done") (Some "")
            (fresh always_half))
     = Normal {| statusCode := 401 |}.
Proof.
  pose proof (invalid_signature_is_rejected_without_effects
                iso8601_utc_getTime github_handler (unsigned_headers "push")
                ping jira_handler (issue_event "jira:issue_updated" "Done")
                (Some "") (fresh always_half)) as [G J].
  split; [reflexivity|]. split; [reflexivity|]. split.
  - exact (proj1 (G eq_refl)).
  - exact (proj1 (J eq_refl)).
Defined.

(** Three failed attempts of [event_without_fields] leave three copies of
    its closure in the queue, and the fourth fails like the others. *)
Lemma three_failures_queue_three_tasks :
  issue event_without_fields = Some issue_without_fields
  /\ sync_error issue_without_fields = Some (TypeError_reading "status")
  /\ retryQueue (rerun 3 stuck_task (fresh always_half))
     = [stuck_task; stuck_task; stuck_task]
  /\ fst (run_task stuck_task (rerun 3 stuck_task (fresh always_half)))
     = Normal {| status := RETRY_QUEUED; externalId := "10001";
                 internalId := None;
                 error := Some (TypeError_reading "status") |}.
Proof.
  pose proof (failed_sync_requeues_the_same_task event_without_fields _ _
                (fresh always_half) 3 eq_refl eq_refl) as (R & Q & _).
  split; [reflexivity|]. split; [reflexivity|]. split.
  - exact Q.
  - exact R.
Defined.

(** A pull request created at 08:00 and merged at 13:30 the same day. *)
Lemma five_and_a_half_hours_to_merge :
  pull_request pull_request_closed = Some merged_pull_request
  /\ repository pull_request_closed = Some shiplog_repository
  /\ pr_user merged_pull_request = Some {| login := "octocat" |}
  /\ merged_at merged_pull_request = Some "2024-03-01T13:30:00Z"
  /\ "2024-03-01T13:30:00Z" <> ""
  /\ (iso8601_utc_getTime "2024-03-01T13:30:00Z"
      - iso8601_utc_getTime "2024-03-01T08:00:00Z")%float = 19800000%float
  /\ exists meta,
       fst (trackPullRequest iso8601_utc_getTime pull_request_closed
              (fresh always_half))
       = Normal (Some meta)
       /\ timeToMergeHours meta = Some 5.5%float
       /\ persistence_writes
            (snd (trackPullRequest iso8601_utc_getTime pull_request_closed
                    (fresh always_half)))
          = [metadata_line meta].
Proof.
  assert ("2024-03-01T13:30:00Z" <> "") as N by discriminate.
  assert ((iso8601_utc_getTime "2024-03-01T13:30:00Z"
           - iso8601_utc_getTime "2024-03-01T08:00:00Z")%float
          = 19800000%float) as D by (vm_compute; reflexivity).
  do 4 (split; [reflexivity|]). split; [exact N|]. split; [exact D|].
  exact (five_and_a_half_hours_are_stored_as_such iso8601_utc_getTime
           pull_request_closed merged_pull_request shiplog_repository
           {| login := "octocat" |} "2024-03-01T13:30:00Z"
           (fresh always_half) eq_refl eq_refl eq_refl eq_refl N D).
Defined.

(** A signed GitHub [ping], and a signed [jira:issue_deleted]. *)
Lemma ping_is_accepted_and_deleted_issue_is_synced :
  verifySignature github_handler
    (own_property (signed_headers "ping") "x-hub-signature-256") ping = true
  /\ is_kind (own_property (signed_headers "ping") "x-github-event")
       "pull_request" = false
  /\ is_kind (own_property (signed_headers "ping") "x-github-event")
       "push" = false
  /\ isValidSignature jira_handler (Some "sha256=00") = true
  /\ issue (issue_event "jira:issue_deleted" "Closed")
     = Some (issue_labelled "Closed")
  /\ fst (handleEvent iso8601_utc_getTime github_handler
         (signed_headers "ping") ping (fresh always_half))
  = Normal {| response_status := "ACCEPTED" |}
  /\ persistence_writes
       (snd (handleEvent iso8601_utc_getTime github_handler
               (signed_headers "ping") ping (fresh always_half)))
     = []
  /\ fst (handleWebhook jira_handler
            (issue_event "jira:issue_deleted" "Closed") (Some "sha256=00")
            (fresh always_half))
     = Normal {| statusCode := 200 |}
  /\ persistence_writes
       (snd (handleWebhook jira_handler
               (issue_event "jira:issue_deleted" "Closed")
               (Some "sha256=00") (fresh always_half)))
     = [persist_line "SHIP-500" (VString "RELEASED")].
Proof.
  pose proof (untracked_github_kind_is_a_no_op_and_jira_syncs_every_kind
                iso8601_utc_getTime github_handler (signed_headers "ping")
                ping jira_handler (issue_event "jira:issue_deleted" "Closed")
                (Some "sha256=00") (fresh always_half)
                (issue_labelled "Closed") (fields_with "Closed")
                (status_named "Closed")) as [G J].
  destruct (G eq_refl eq_refl eq_refl) as (G1 & G2 & _).
  destruct (J eq_refl eq_refl eq_refl eq_refl) as (J1 & J2 & _).
  do 5 (split; [reflexivity|]).
  split; [exact G1|]. split; [exact G2|]. split; [exact J1|exact J2].
Defined.

(** A [ping] carries no pull request. *)
Lemma ping_tracks_no_pull_request :
  pull_request ping = None
  /\ trackPullRequest iso8601_utc_getTime ping (fresh always_half)
     = (Normal None, fresh always_half).
Proof.
  split; [reflexivity|].
  exact (proj1 (trackPullRequest_without_pull_request iso8601_utc_getTime
                  ping (fresh always_half) eq_refl)).
Defined.

(** A signed webhook for [event_without_fields]. *)
Lemma event_without_fields_is_accepted_for_retry :
  isValidSignature jira_handler (Some "sha256=00") = true
  /\ issue event_without_fields = Some issue_without_fields
  /\ sync_error issue_without_fields = Some (TypeError_reading "status")
  /\ fst (handleWebhook jira_handler event_without_fields (Some "sha256=00")
            (fresh always_half))
     = Normal {| statusCode := 202 |}
  /\ retryQueue
       (snd (handleWebhook jira_handler event_without_fields
               (Some "sha256=00") (fresh always_half)))
     = [stuck_task].
Proof.
  destruct (handleWebhook_accepts_for_retry jira_handler event_without_fields
              (Some "sha256=00") (fresh always_half) _ _
              eq_refl eq_refl eq_refl) as (R & Q & _).
  do 3 (split; [reflexivity|]). split; [exact R|exact Q].
Defined.

(* ================================================================== *)
(** * More about the Jira sync *)
(* ================================================================== *)

Lemma latest_app {A} (f : Line -> option A) (newer older : list Line) :
  latest f (newer ++ older)
  = match latest f newer with
    | Some a => Some a
    | None => latest f older
    end.
Proof.
  induction newer as [|l newer IH]; simpl; [reflexivity|].
  destruct (f l); [reflexivity|exact IH].
Qed.

Lemma latest_none {A} (f : Line -> option A) (ls : list Line) :
  (forall l, In l ls -> f l = None) -> latest f ls = None.
Proof.
  induction ls as [|l ls IH]; intros H; simpl; [reflexivity|].
  rewrite (H l (or_introl eq_refl)). apply IH.
  intros l' Hl'. apply H. now right.
Qed.

(** Lines that store nothing for [id] do not change what is stored for
    it. *)
Lemma persisted_status_appended id c ls q r d :
  (forall l, In l ls -> stored_status_of id l = None) ->
  persisted_status id (mkWorld (c ++ ls) q r d)
  = latest (stored_status_of id) (rev c).
Proof.
  intros H. unfold persisted_status; simpl.
  rewrite rev_app_distr, latest_app, latest_none; [reflexivity|].
  intros l Hl. apply H. now apply in_rev.
Qed.

Lemma stored_status_of_other id id' v :
  id <> id' -> stored_status_of id (persist_line id' v) = None.
Proof.
  intros N. unfold stored_status_of; simpl.
  destruct (String.eqb id' id) eqn:E; [|reflexivity].
  apply String.eqb_eq in E. congruence.
Qed.

(** A result of RETRY_QUEUED tells that the issue was there and
    incomplete. *)
Lemma retry_queued_inv payload w r :
  fst (syncIssue payload w) = Normal r ->
  status r = RETRY_QUEUED ->
  exists i e,
    issue payload = Some i /\ sync_error i = Some e /\ error r = Some e.
Proof.
  intros Hr Hs.
  destruct (issue payload) as [i|] eqn:Ei.
  - destruct (sync_error_cases i) as [(f & s & Ef & Es)|(e & Ee)].
    + rewrite (syncIssue_succeeds payload w i f s Ei Ef Es) in Hr.
      injection Hr as <-. discriminate.
    + rewrite (syncIssue_queues payload w i e Ei Ee) in Hr.
      injection Hr as <-. eauto.
  - rewrite (syncIssue_throws payload w Ei) in Hr. discriminate.
Qed.

(** A sync changes what is stored for the entity it resolved and for no
    other: the status stored for any other id is what it was; a sync that
    ends in RETRY_QUEUED changes what is stored for no id at all; and a
    sync that throws changes nothing. *)
Theorem sync_stores_for_one_entity_only
    (payload : JiraWebhookPayload) (w : World) (id : string) :
  (id <> next_id w ->
   persisted_status id (snd (syncIssue payload w)) = persisted_status id w)
  /\ (forall r,
        fst (syncIssue payload w) = Normal r ->
        status r = RETRY_QUEUED ->
        persisted_status id (snd (syncIssue payload w))
        = persisted_status id w)
  /\ (forall e,
        fst (syncIssue payload w) = Throw e ->
        snd (syncIssue payload w) = w).
Proof.
  split; [|split].
  - intros N. destruct (issue payload) as [i|] eqn:Ei.
    + destruct (sync_error_cases i) as [(f & s & Ef & Es)|(e & Ee)].
      * rewrite (syncIssue_succeeds payload w i f s Ei Ef Es); simpl.
        apply persisted_status_appended.
        intros l [<-|[<-|[<-|[]]]]; try reflexivity.
        now apply stored_status_of_other.
      * rewrite (syncIssue_queues payload w i e Ei Ee); simpl.
        apply persisted_status_appended.
        intros l [<-|[<-|[<-|[]]]]; reflexivity.
    + now rewrite (syncIssue_throws payload w Ei).
  - intros r Hr Hs.
    destruct (retry_queued_inv payload w r Hr Hs) as (i & e & Ei & Ee & _).
    rewrite (syncIssue_queues payload w i e Ei Ee); simpl.
    apply persisted_status_appended.
    intros l [<-|[<-|[<-|[]]]]; reflexivity.
  - intros e He. destruct (issue payload) as [i|] eqn:Ei.
    + destruct (sync_error_cases i) as [(f & s & Ef & Es)|(e' & Ee)].
      * rewrite (syncIssue_succeeds payload w i f s Ei Ef Es) in He.
        discriminate.
      * rewrite (syncIssue_queues payload w i e' Ei Ee) in He.
        discriminate.
    + now rewrite (syncIssue_throws payload w Ei).
Qed.

(** A task that [syncIssue] has queued cannot succeed later: whatever the
    state in which the closure is called, it ends in RETRY_QUEUED with
    the same error, because the failure depends on the payload alone. *)
Theorem queued_task_never_succeeds
    (payload : JiraWebhookPayload) (w : World) (r : SyncResult) :
  fst (syncIssue payload w) = Normal r ->
  status r = RETRY_QUEUED ->
  In {| captured := payload |} (retryQueue (snd (syncIssue payload w)))
  /\ forall w2 : World,
       exists r2,
         fst (run_task {| captured := payload |} w2) = Normal r2
         /\ status r2 = RETRY_QUEUED
         /\ error r2 = error r.
Proof.
  intros Hr Hs.
  destruct (retry_queued_inv payload w r Hr Hs) as (i & e & Ei & Ee & Er).
  split.
  - rewrite (syncIssue_queues payload w i e Ei Ee); simpl.
    apply in_or_app. right. now left.
  - intros w2. unfold run_task; simpl.
    rewrite (syncIssue_queues payload w2 i e Ei Ee); simpl.
    eexists. split; [reflexivity|]. split; [reflexivity|].
    simpl. now rewrite Er.
Qed.

(** One sync of a payload that carries an issue adds one to the number of
    writes and queued retries taken together. *)
Lemma sync_adds_one payload w :
  (List.length (persistence_writes (snd (syncIssue payload w)))
   + List.length (retryQueue (snd (syncIssue payload w))))%nat
  = (List.length (persistence_writes w) + List.length (retryQueue w)
     + (if has_issue payload then 1 else 0))%nat.
Proof.
  unfold has_issue. destruct (issue payload) as [i|] eqn:Ei.
  - destruct (sync_error_cases i) as [(f & s & Ef & Es)|(e & Ee)].
    + rewrite (syncIssue_succeeds payload w i f s Ei Ef Es); simpl.
      rewrite persistence_writes_app; simpl.
      rewrite length_app; simpl. unfold persistence_writes. lia.
    + rewrite (syncIssue_queues payload w i e Ei Ee); simpl.
      rewrite persistence_writes_app; simpl.
      rewrite app_nil_r, length_app; simpl. unfold persistence_writes. lia.
  - rewrite (syncIssue_throws payload w Ei); simpl. lia.
Qed.

(** No delivered event is lost and none is counted twice: after any
    sequence of syncs, the writes and the queued retries have grown,
    taken together, by the number of payloads that carried an issue. *)
Theorem deliveries_are_stored_or_queued
    (payloads : list JiraWebhookPayload) (w : World) :
  (List.length (persistence_writes (deliver payloads w))
   + List.length (retryQueue (deliver payloads w)))%nat
  = (List.length (persistence_writes w) + List.length (retryQueue w)
     + List.length (filter has_issue payloads))%nat.
Proof.
  revert w. induction payloads as [|payload rest IH]; intros w; simpl.
  - lia.
  - rewrite IH, sync_adds_one.
    destruct (has_issue payload); simpl; lia.
Qed.

(** What [handleWebhook] answers, for every request: 401 exactly when the
    signature is missing or empty; otherwise 200 exactly when the issue
    is complete, 202 exactly when the issue lacks [fields] or [status];
    and when the body has no issue at all the call throws a [TypeError]
    after its first line, answering nothing. *)
Theorem handleWebhook_on_every_request
    (jh : JiraWebhookHandler) (body : JiraWebhookPayload)
    (sig : option string) (w : World) :
  match fst (handleWebhook jh body sig w) with
  | Normal r =>
      (statusCode r = 401 /\ isValidSignature jh sig = false)
      \/ (statusCode r = 200 /\ isValidSignature jh sig = true
          /\ exists i, issue body = Some i /\ sync_error i = None)
      \/ (statusCode r = 202 /\ isValidSignature jh sig = true
          /\ exists i e, issue body = Some i /\ sync_error i = Some e)
  | Throw e =>
      e = TypeError_reading "key"
      /\ isValidSignature jh sig = true
      /\ issue body = None
      /\ snd (handleWebhook jh body sig w)
         = mkWorld (console w ++ [received_line]) (retryQueue w)
             (random w) (drawn w)
  end.
Proof.
  unfold handleWebhook, bind, console_log, write_line.
  destruct (isValidSignature jh sig) eqn:Hsig; simpl; [|now left].
  destruct (issue body) as [i|] eqn:Ei.
  - destruct (sync_error_cases i) as [(f & s & Ef & Es)|(e & Ee)].
    + rewrite (syncIssue_succeeds body _ i f s Ei Ef Es); simpl.
      right; left. repeat split. exists i. split; [reflexivity|].
      unfold sync_error. now rewrite Ef, Es.
    + rewrite (syncIssue_queues body _ i e Ei Ee); simpl.
      right; right. repeat split. eauto.
  - rewrite (syncIssue_throws body _ Ei); simpl. repeat split.
Qed.

(* ================================================================== *)
(** * More about the GitHub intake *)
(* ================================================================== *)

Lemma commit_lines_are_no_writes (cs : list Commit) :
  filter is_persist_line (fst (commit_lines cs)) = [].
Proof.
  induction cs as [|c cs IH]; simpl; [reflexivity|].
  destruct (commit_id c) as [id|]; [|reflexivity].
  destruct (commit_author c) as [who|]; [|reflexivity].
  exact IH.
Qed.




Lemma track_commits_lines (cs : list Commit) (w : World) :
  track_commits cs w
  = (match snd (commit_lines cs) with
     | Some e => Throw e
     | None => Normal tt
     end,
     mkWorld (console w ++ fst (commit_lines cs)) (retryQueue w)
       (random w) (drawn w)).
Proof.
  revert w. induction cs as [|c cs IH]; intros w; simpl.
  - destruct w; simpl. now rewrite app_nil_r.
  - unfold bind, read, commit_error.
    destruct (commit_id c) as [id|]; simpl;
      [|destruct w; simpl; now rewrite app_nil_r].
    destruct (commit_author c) as [who|]; simpl;
      [|destruct w; simpl; now rewrite app_nil_r].
    unfold console_log, write_line. rewrite IH; simpl.
    unfold commit_line. now rewrite <- app_assoc.
Qed.

Lemma monitorCommits_lines (payload : GithubWebhookPayload) (w : World) :
  monitorCommits payload w
  = match repository payload with
    | None => (Throw (TypeError_reading "full_name"), w)
    | Some repo =>
        (match snd (commit_lines (commits_of payload)) with
         | Some e => Throw e
         | None => Normal tt
         end,
         mkWorld
           (console w
            ++ ingesting_line payload repo
               :: fst (commit_lines (commits_of payload)))
           (retryQueue w) (random w) (drawn w))
    end.
Proof.
  unfold monitorCommits, bind, read.
  destruct (repository payload) as [repo|]; simpl; [|reflexivity].
  unfold console_log, write_line.
  fold (commits_of payload). rewrite track_commits_lines; simpl.
  unfold ingesting_line. now rewrite <- app_assoc.
Qed.


Section MoreWithDateReader.

Variable Date_getTime : string -> Number.

(** A pull request without the repository: the read throws before
    anything is written. *)
Lemma trackPullRequest_without_repository
    (payload : GithubWebhookPayload) (pr : PullRequest) (w : World) :
  pull_request payload = Some pr ->
  repository payload = None ->
  trackPullRequest Date_getTime payload w
  = (Throw (TypeError_reading "full_name"), w).
Proof.
  intros Epr Erepo. unfold trackPullRequest, bind, read.
  now rewrite Epr, Erepo.
Qed.

(** A pull request without its user: the read throws after the first
    line, before the draw and the write. *)
Lemma trackPullRequest_without_user
    (payload : GithubWebhookPayload) (pr : PullRequest)
    (repo : Repository) (w : World) :
  pull_request payload = Some pr ->
  repository payload = Some repo ->
  pr_user pr = None ->
  trackPullRequest Date_getTime payload w
  = (Throw (TypeError_reading "login"),
     mkWorld (console w ++ [tracking_line repo pr]) (retryQueue w)
       (random w) (drawn w)).
Proof.
  intros Epr Erepo Euser.
  unfold trackPullRequest, bind, read, console_log, write_line.
  rewrite Epr, Erepo; simpl. now rewrite Euser.
Qed.

(** What [handleEvent] answers and writes, for every headers and every
    body.  Unsigned, the answer is UNAUTHORIZED and the body is not
    read.  Signed, the answer is ACCEPTED unless the method the kind is
    routed to reads a member that the body lacks (the repository, the
    user of the pull request, the id or author of a commit): then the
    call throws that [TypeError] and answers nothing.  Exactly one
    persistence write is made when the request is signed, of kind
    [pull_request] and carries a pull request with its user and the
    repository, and none in every other case, a throwing one included;
    no retry is ever queued. *)
Theorem handleEvent_on_every_request
    (gh : GithubWebhookHandler) (headers : Headers)
    (body : GithubWebhookPayload) (w : World) :
  fst (handleEvent Date_getTime gh headers body w)
  = (if verifySignature gh
          (own_property headers "x-hub-signature-256") body
     then match body_error headers body with
          | Some e => Throw e
          | None => Normal {| response_status := "ACCEPTED" |}
          end
     else Normal {| response_status := "UNAUTHORIZED" |})
  /\ retryQueue (snd (handleEvent Date_getTime gh headers body w))
     = retryQueue w
  /\ List.length
       (persistence_writes (snd (handleEvent Date_getTime gh headers body w)))
     = (List.length (persistence_writes w)
        + (if tracks_a_pull_request gh headers body then 1 else 0))%nat.
Proof.
  unfold tracks_a_pull_request, body_error, handleEvent, bind, console_log,
    write_line.
  destruct (verifySignature gh _ body) eqn:Hsig; simpl.
  - destruct (is_kind _ "pull_request") eqn:Hpr; simpl.
    + destruct (pull_request body) as [pr|] eqn:Epr.
      * destruct (repository body) as [repo|] eqn:Erepo.
        -- destruct (pr_user pr) as [user|] eqn:Euser.
           ++ match goal with
              | |- context [trackPullRequest Date_getTime body ?w0] =>
                  destruct (trackPullRequest_stores Date_getTime body pr
                              repo user w0 Epr Erepo Euser)
                    as (meta & E & _)
              end.
              rewrite E; simpl. repeat split.
              writes_of_appended. rewrite length_app; simpl. lia.
           ++ rewrite (trackPullRequest_without_user body pr repo _
                         Epr Erepo Euser); simpl.
              repeat split.
              writes_of_appended. rewrite app_nil_r. lia.
        -- rewrite (trackPullRequest_without_repository body pr _
                      Epr Erepo); simpl.
           repeat split.
           writes_of_appended. rewrite app_nil_r. lia.
      * unfold trackPullRequest. rewrite Epr; simpl. repeat split.
        writes_of_appended. rewrite app_nil_r. lia.
    + destruct (is_kind _ "push") eqn:Hpush; simpl.
      * rewrite monitorCommits_lines.
        destruct (repository body) as [repo|]; simpl.
        -- destruct (snd (commit_lines (commits_of body))) as [e|]; simpl;
             (repeat split;
              writes_of_appended; rewrite commit_lines_are_no_writes; simpl;
              rewrite app_nil_r; lia).
        -- repeat split.
           writes_of_appended. rewrite app_nil_r. lia.
      * repeat split.
        writes_of_appended. rewrite app_nil_r. lia.
  - repeat split.
    writes_of_appended. rewrite app_nil_r. lia.
Qed.

End MoreWithDateReader.

(* ================================================================== *)
(** * Pull requests that are not merged, or not dated *)
(* ================================================================== *)

Lemma is_nan_from_spec (x : Number) : Prim2SF x = S754_nan -> x = nan.
Proof. intros H. apply Prim2SF_inj. now rewrite H. Qed.

Lemma sub_nan_r (x : Number) : (x - nan)%float = nan.
Proof.
  apply is_nan_from_spec. rewrite FloatAxioms.sub_spec.
  change (Prim2SF nan) with S754_nan.
  destruct (Prim2SF x); reflexivity.
Qed.

Lemma sub_nan_l (x : Number) : (nan - x)%float = nan.
Proof.
  apply is_nan_from_spec. rewrite FloatAxioms.sub_spec.
  change (Prim2SF nan) with S754_nan. reflexivity.
Qed.

Section Undated.

Variable Date_getTime : string -> Number.

(** A pull request whose [merged_at] is absent or empty is stored with
    [timeToMergeHours] 0, the value a pull request merged in the instant
    of its creation gets, and its [mergedAt] is passed on as it came; the
    dates are not read for it. *)
Theorem unmerged_pull_request_is_stored_with_zero
    (payload : GithubWebhookPayload) (pr : PullRequest)
    (repo : Repository) (user : GithubUser) (w : World) :
  pull_request payload = Some pr ->
  repository payload = Some repo ->
  pr_user pr = Some user ->
  merged_at pr = None \/ merged_at pr = Some "" ->
  exists meta,
    fst (trackPullRequest Date_getTime payload w) = Normal (Some meta)
    /\ timeToMergeHours meta = Some 0%float
    /\ mergedAt meta = merged_at pr
    /\ persistence_writes (snd (trackPullRequest Date_getTime payload w))
       = (persistence_writes w ++ [metadata_line meta])%list.
Proof.
  intros Epr Erepo Euser Hm.
  destruct (trackPullRequest_stores Date_getTime payload pr repo user w
              Epr Erepo Euser)
    as (meta & E & T & _ & _ & _ & _ & _ & _ & _ & M).
  exists meta. rewrite E; simpl. split; [reflexivity|]. split; [|split].
  - rewrite T. destruct Hm as [Em|Em]; rewrite Em; reflexivity.
  - exact M.
  - rewrite persistence_writes_app; simpl. reflexivity.
Qed.

(** A merged pull request one of whose two dates the run time cannot
    read is not turned down: it is written like any other, with NaN as
    its [timeToMergeHours]. *)
Theorem unreadable_date_is_stored_as_nan
    (payload : GithubWebhookPayload) (pr : PullRequest)
    (repo : Repository) (user : GithubUser) (m : string) (w : World) :
  pull_request payload = Some pr ->
  repository payload = Some repo ->
  pr_user pr = Some user ->
  merged_at pr = Some m ->
  m <> "" ->
  Date_getTime (created_at pr) = nan \/ Date_getTime m = nan ->
  exists meta,
    fst (trackPullRequest Date_getTime payload w) = Normal (Some meta)
    /\ timeToMergeHours meta = Some nan
    /\ persistence_writes (snd (trackPullRequest Date_getTime payload w))
       = (persistence_writes w ++ [metadata_line meta])%list.
Proof.
  intros Epr Erepo Euser Em Hm Hnan. apply String.eqb_neq in Hm.
  destruct (trackPullRequest_stores Date_getTime payload pr repo user w
              Epr Erepo Euser) as (meta & E & T & _).
  exists meta. rewrite E; simpl. split; [reflexivity|]. split.
  - rewrite T, Em; simpl. rewrite Hm; simpl.
    destruct Hnan as [N|N]; rewrite N;
      [rewrite sub_nan_r|rewrite sub_nan_l]; reflexivity.
  - rewrite persistence_writes_app; simpl. reflexivity.
Qed.

End Undated.

(* ================================================================== *)
(** * Authorization URLs and the methods that only report *)
(* ================================================================== *)

(** [authorize] never throws and writes one line that is no persistence
    write.  The URL it returns and the line it writes are made of the
    client id and the scopes alone: two configurations that agree on
    these give the same URL and the same console, whatever their
    [clientSecret] and [redirectUri]. *)
Theorem authorize_uses_client_id_and_scopes_only
    (a b : JiraIntegrationService) (w : World) :
  jira_clientId (config a) = jira_clientId (config b) ->
  scopes (config a) = scopes (config b) ->
  authorize a w = authorize b w
  /\ (exists url, fst (authorize a w) = Normal url)
  /\ persistence_writes (snd (authorize a w)) = persistence_writes w
  /\ retryQueue (snd (authorize a w)) = retryQueue w
  /\ (exists line,
        console (snd (authorize a w)) = (console w ++ [line])%list).
Proof.
  intros Eid Escopes. unfold authorize, bind, console_log, write_line; simpl.
  rewrite Eid, Escopes. split; [reflexivity|]. split; [eauto|].
  split; [|split; [reflexivity|eauto]].
  writes_of_appended. apply app_nil_r.
Qed.

(** [linkPrToIssue] and [updateRepoConfig] answer [true] for every input,
    and [getInstallationUrl] answers the one installation URL for every
    configuration; each writes a single console line and stores nothing:
    no persistence write is made and nothing is queued. *)
Theorem reporting_methods_store_nothing
    (prId jiraKey : string) (repo : RepoConfig)
    (this : GithubIntegrationService) (w : World) :
  (fst (linkPrToIssue prId jiraKey w) = Normal true
   /\ persistence_writes (snd (linkPrToIssue prId jiraKey w))
      = persistence_writes w
   /\ retryQueue (snd (linkPrToIssue prId jiraKey w)) = retryQueue w)
  /\ (fst (updateRepoConfig repo w) = Normal true
      /\ persistence_writes (snd (updateRepoConfig repo w))
         = persistence_writes w
      /\ retryQueue (snd (updateRepoConfig repo w)) = retryQueue w)
  /\ (fst (getInstallationUrl this w)
      = Normal "https://github.com/apps/shiplog-intel/installations/new"
      /\ persistence_writes (snd (getInstallationUrl this w))
         = persistence_writes w
      /\ retryQueue (snd (getInstallationUrl this w)) = retryQueue w)
  /\ (exists line,
        console (snd (linkPrToIssue prId jiraKey w))
        = (console w ++ [line])%list)
  /\ (exists line,
        console (snd (updateRepoConfig repo w)) = (console w ++ [line])%list)
  /\ (exists line,
        console (snd (getInstallationUrl this w))
        = (console w ++ [line])%list).
Proof.
  repeat split; try (writes_of_appended; apply app_nil_r);
    simpl; eauto.
Qed.

(* ================================================================== *)
(** * These theorems at inputs of the scenarios *)
(* ================================================================== *)

(** After Done was stored for SHIP-500, a sync that resolves to SHIP-250
    and a sync that fails both leave RELEASED stored for SHIP-500. *)
Lemma released_survives_other_syncs :
  "SHIP-500"
  <> next_id (snd (syncIssue (issue_event "jira:issue_updated" "Done")
                     (fresh half_then_quarter)))
  /\ persisted_status "SHIP-500"
       (snd (syncIssue (issue_event "jira:issue_updated" "Blocked")
               (snd (syncIssue (issue_event "jira:issue_updated" "Done")
                       (fresh half_then_quarter)))))
     = Some (VString "RELEASED")
  /\ persisted_status "SHIP-500"
       (snd (syncIssue event_without_fields
               (snd (syncIssue (issue_event "jira:issue_updated" "Done")
                       (fresh half_then_quarter)))))
     = Some (VString "RELEASED").
Proof.
  assert ("SHIP-500"
          <> next_id (snd (syncIssue (issue_event "jira:issue_updated" "Done")
                             (fresh half_then_quarter)))) as N.
  { intros E. vm_compute in E. discriminate. }
  split; [exact N|]. split.
  - exact (eq_trans
             (proj1 (sync_stores_for_one_entity_only
                       (issue_event "jira:issue_updated" "Blocked") _
                       "SHIP-500") N)
             eq_refl).
  - exact (eq_trans
             (proj1 (proj2 (sync_stores_for_one_entity_only
                              event_without_fields _ "SHIP-500"))
                _ eq_refl eq_refl)
             eq_refl).
Defined.

(** The task queued for [event_without_fields] fails in a fresh process
    too. *)
Lemma stuck_task_fails_again :
  In stuck_task
    (retryQueue (snd (syncIssue event_without_fields (fresh always_half))))
  /\ exists r2,
       fst (run_task stuck_task (fresh half_then_quarter)) = Normal r2
       /\ status r2 = RETRY_QUEUED
       /\ error r2 = Some (TypeError_reading "status").
Proof.
  destruct (queued_task_never_succeeds event_without_fields
              (fresh always_half) _ eq_refl eq_refl) as [Q F].
  split; [exact Q|exact (F (fresh half_then_quarter))].
Defined.

(** An open pull request. *)
Lemma open_pull_request_has_zero_hours :
  pull_request pull_request_opened = Some open_pull_request
  /\ repository pull_request_opened = Some shiplog_repository
  /\ pr_user open_pull_request = Some {| login := "octocat" |}
  /\ (merged_at open_pull_request = None
      \/ merged_at open_pull_request = Some "")
  /\ exists meta,
       fst (trackPullRequest iso8601_utc_getTime pull_request_opened
              (fresh always_half))
       = Normal (Some meta)
       /\ timeToMergeHours meta = Some 0%float
       /\ mergedAt meta = None.
Proof.
  do 3 (split; [reflexivity|]). split; [left; reflexivity|].
  destruct (unmerged_pull_request_is_stored_with_zero iso8601_utc_getTime
              pull_request_opened open_pull_request shiplog_repository
              {| login := "octocat" |} (fresh always_half)
              eq_refl eq_refl eq_refl (or_introl eq_refl))
    as (meta & R & T & M & _).
  exists meta. split; [exact R|]. split; [exact T|exact M].
Defined.

(** A pull request created ["yesterday"]. *)
Lemma undated_pull_request_has_nan_hours :
  pull_request undated_pull_request_closed = Some undated_pull_request
  /\ repository undated_pull_request_closed = Some shiplog_repository
  /\ pr_user undated_pull_request = Some {| login := "octocat" |}
  /\ merged_at undated_pull_request = Some "2024-03-01T13:30:00Z"
  /\ "2024-03-01T13:30:00Z" <> ""
  /\ iso8601_utc_getTime (created_at undated_pull_request) = nan
  /\ exists meta,
       fst (trackPullRequest iso8601_utc_getTime undated_pull_request_closed
              (fresh always_half))
       = Normal (Some meta)
       /\ timeToMergeHours meta = Some nan
       /\ persistence_writes
            (snd (trackPullRequest iso8601_utc_getTime
                    undated_pull_request_closed (fresh always_half)))
          = [metadata_line meta].
Proof.
  assert ("2024-03-01T13:30:00Z" <> "") as N by discriminate.
  assert (iso8601_utc_getTime (created_at undated_pull_request) = nan) as D
    by reflexivity.
  do 4 (split; [reflexivity|]). split; [exact N|].
  split; [exact D|].
  exact (unreadable_date_is_stored_as_nan iso8601_utc_getTime
           undated_pull_request_closed undated_pull_request
           shiplog_repository {| login := "octocat" |}
           "2024-03-01T13:30:00Z" (fresh always_half)
           eq_refl eq_refl eq_refl eq_refl N (or_introl D)).
Defined.

(** Two configurations that differ in secret and redirect URI. *)
Lemma authorize_with_two_secrets :
  jira_clientId (config (jira_service "s3cret" "https://a.example/cb"))
  = jira_clientId (config (jira_service "hunter2" "https://b.example/cb"))
  /\ scopes (config (jira_service "s3cret" "https://a.example/cb"))
     = scopes (config (jira_service "hunter2" "https://b.example/cb"))
  /\ authorize (jira_service "s3cret" "https://a.example/cb")
       (fresh always_half)
     = authorize (jira_service "hunter2" "https://b.example/cb")
         (fresh always_half)
  /\ fst (authorize (jira_service "s3cret" "https://a.example/cb")
            (fresh always_half))
     = Normal
         "https://api.atlassian.com/ex/jira/authorize?client_id=shiplog&scope=read:jira-work%20write:jira-work".
Proof.
  split; [reflexivity|]. split; [reflexivity|]. split.
  - exact (proj1 (authorize_uses_client_id_and_scopes_only
                    (jira_service "s3cret" "https://a.example/cb")
                    (jira_service "hunter2" "https://b.example/cb")
                    (fresh always_half) eq_refl eq_refl)).
  - reflexivity.
Defined.

(* ================================================================== *)
(** * The two integrations side by side *)
(* ================================================================== *)

Lemma commit_lines_store_no_status id (cs : list Commit) :
  forall l, In l (fst (commit_lines cs)) -> stored_status_of id l = None.
Proof.
  induction cs as [|c cs IH]; simpl; [tauto|].
  destruct (commit_id c) as [i|]; [|simpl; tauto].
  destruct (commit_author c) as [who|]; [|simpl; tauto].
  simpl. intros l [<-|Hl]; [reflexivity|now apply IH].
Qed.

(** No GitHub request changes the status stored for any entity: whatever
    the headers and the body, what [persisted_status] finds for an id
    after [handleEvent] is what it found before.  The write for a pull
    request is a write of another kind. *)
Theorem github_requests_leave_entity_statuses
    (Date_getTime : string -> Number)
    (gh : GithubWebhookHandler) (headers : Headers)
    (body : GithubWebhookPayload) (w : World) (id : string) :
  persisted_status id (snd (handleEvent Date_getTime gh headers body w))
  = persisted_status id w.
Proof.
  unfold handleEvent, bind, console_log, write_line.
  destruct (verifySignature gh _ body) eqn:Hsig; simpl.
  - destruct (is_kind _ "pull_request") eqn:Hpr; simpl.
    + destruct (pull_request body) as [pr|] eqn:Epr.
      * destruct (repository body) as [repo|] eqn:Erepo.
        -- destruct (pr_user pr) as [user|] eqn:Euser.
           ++ match goal with
              | |- context [trackPullRequest Date_getTime body ?w0] =>
                  destruct (trackPullRequest_stores Date_getTime body pr
                              repo user w0 Epr Erepo Euser)
                    as (meta & E & _)
              end.
              rewrite E; simpl. rewrite <- app_assoc.
              apply persisted_status_appended.
              intros l [<-|[<-|[<-|[]]]]; reflexivity.
           ++ rewrite (trackPullRequest_without_user Date_getTime body pr
                         repo _ Epr Erepo Euser); simpl.
              rewrite <- app_assoc. apply persisted_status_appended.
              intros l [<-|[<-|[]]]; reflexivity.
        -- rewrite (trackPullRequest_without_repository Date_getTime body
                      pr _ Epr Erepo); simpl.
           apply persisted_status_appended.
           intros l [<-|[]]; reflexivity.
      * unfold trackPullRequest. rewrite Epr; simpl.
        apply persisted_status_appended.
        intros l [<-|[]]; reflexivity.
    + destruct (is_kind _ "push") eqn:Hpush; simpl.
      * rewrite monitorCommits_lines.
        destruct (repository body) as [repo|]; simpl.
        -- assert (forall c,
                     persisted_status id
                       (snd (c : Completion unit,
                             mkWorld
                               ((console w ++
                                 [mkLine LOG
                                    [Lit "[GITHUB_WEBHOOK] Received '";
                                     Sub (of_optional
                                            (own_property headers
                                               "x-github-event"));
                                     Lit "' event."]])
                                ++ ingesting_line body repo
                                   :: fst (commit_lines (commits_of body)))
                               (retryQueue w) (random w) (drawn w)))
                     = persisted_status id w) as H.
           { intros c. simpl. rewrite <- app_assoc.
             apply persisted_status_appended.
             intros l [<-|[<-|Hl]]; try reflexivity.
             now apply commit_lines_store_no_status
               with (cs := commits_of body). }
           destruct (snd (commit_lines (commits_of body))) as [e|]; simpl;
             apply (H (Normal tt)).
        -- apply persisted_status_appended.
           intros l [<-|[]]; reflexivity.
      * rewrite <- app_assoc. apply persisted_status_appended.
        intros l [<-|[<-|[]]]; reflexivity.
  - rewrite <- app_assoc. apply persisted_status_appended.
    intros l [<-|[<-|[]]]; reflexivity.
Qed.

